(** * deploy.py: the CloudFormation lifecycle controller, embedded in Rocq

    The script talks to remote services (CloudFormation, S3, STS, Athena),
    to the terminal and to the file system.  Every such interaction is a
    call to an oracle, [Services W], over an arbitrary world state [W]; the
    embedding records each call and each printed line in a trace, so that
    "which calls are issued, in which order" is a property of the program
    and not of the oracle.  Python exceptions are explicit outcomes. *)

From Stdlib Require Import String Ascii List ZArith Lia Bool Arith.
Import ListNotations.
Open Scope string_scope.

(** ** Python strings

    A [string] is read as a sequence of code points below 256.  [strip] and
    [lower] follow [str.strip()] and [str.lower()] on that range. *)
Module Py.

(** [needle in hay] *)
Fixpoint contains (needle hay : string) : bool :=
  if String.prefix needle hay then true
  else match hay with
       | EmptyString => false
       | String _ rest => contains needle rest
       end.

(** [str.isspace] on one code point: TAB..CR, FS..US, space, NEL, NBSP. *)
Definition is_space (c : ascii) : bool :=
  let n := nat_of_ascii c in
  (((9 <=? n) && (n <=? 13)) || ((28 <=? n) && (n <=? 32))
   || (n =? 133) || (n =? 160))%nat.

Fixpoint lstrip (s : string) : string :=
  match s with
  | String c rest => if is_space c then lstrip rest else s
  | EmptyString => EmptyString
  end.

Fixpoint rstrip (s : string) : string :=
  match s with
  | EmptyString => EmptyString
  | String c rest =>
      match rstrip rest with
      | EmptyString => if is_space c then EmptyString else String c EmptyString
      | kept => String c kept
      end
  end.

Definition strip (s : string) : string := rstrip (lstrip s).

(** [str.lower] on one code point: A-Z and the Latin-1 capitals
    (0xC0-0xDE except the multiplication sign 0xD7) move up by 32. *)
Definition lower_char (c : ascii) : ascii :=
  let n := nat_of_ascii c in
  if (((65 <=? n) && (n <=? 90))
      || ((192 <=? n) && (n <=? 222) && negb (n =? 215)))%nat
  then ascii_of_nat (n + 32) else c.

Fixpoint lower (s : string) : string :=
  match s with
  | EmptyString => EmptyString
  | String c rest => String (lower_char c) (lower rest)
  end.

(** ["s" * n] *)
Fixpoint times (s : string) (n : nat) : string :=
  match n with
  | O => EmptyString
  | S k => s ++ times s k
  end.

(** The format spec [{s:<width>s}]: left-justified, padded with spaces. *)
Definition ljust (width : nat) (s : string) : string :=
  s ++ times " " (width - String.length s).

(** [bool(s)] for a string. *)
Definition truthy (s : string) : bool :=
  match s with EmptyString => false | _ => true end.

Definition nl : string := String (ascii_of_nat 10) EmptyString.

(** A [dict] with string keys: insertion-ordered, one entry per key. *)
Definition dict := list (string * string).

(** [d[k] = v]: overwrite in place, or append a new entry. *)
Fixpoint set (d : dict) (k v : string) : dict :=
  match d with
  | [] => [(k, v)]
  | (k', v') :: rest =>
      if String.eqb k' k then (k, v) :: rest else (k', v') :: set rest k v
  end.

(** [d.get(k)] *)
Fixpoint get (d : dict) (k : string) : option string :=
  match d with
  | [] => None
  | (k', v) :: rest => if String.eqb k' k then Some v else get rest k
  end.

(** [{key(o): value(o) for o in l}] *)
Definition comprehension {A} (key value : A -> string) (l : list A) : dict :=
  fold_left (fun d o => set d (key o) (value o)) l [].

(** A dict display [{k1: v1, ...}], or [dict(d)]: the items inserted in
    order. *)
Definition of_items (items : list (string * string)) : dict :=
  comprehension fst snd items.

End Py.

(** ** Exceptions and outcomes *)

(** What a call can raise: a [botocore.exceptions.ClientError], or any other
    subclass of [Exception], given by class name.  [msg] is [str(e)]. *)
Inductive failure : Type :=
| ClientError (msg : string)
| Error (cls msg : string).

Definition str (f : failure) : string :=
  match f with ClientError msg => msg | Error _ msg => msg end.

(** [SystemExit] derives from [BaseException] only: [except Exception] does
    not catch it. *)
Inductive exn : Type :=
| Failure (f : failure)
| SystemExit (code : Z).

Inductive outcome (A : Type) : Type :=
| Ok (a : A)
| Raise (e : exn).
Arguments Ok {A} a.
Arguments Raise {A} e.

(** ** The remote data *)

Record Output : Type := { OutputKey : string; OutputValue : string }.

(** [resp["Stacks"][0]]; the optional keys are options. *)
Record Stack : Type := {
  StackName : string;
  StackStatus : string;
  StackStatusReason : option string;
  Outputs : option (list Output)
}.

(** One status check of a waiter, as its acceptors classify it. *)
Inductive poll : Type :=
| PollSuccess
| PollFailure (reason : string)
| PollRetry.

(** One entry of the [Parameters] argument of create and update. *)
Record StackParameter : Type := { ParameterKey : string; ParameterValue : string }.

(** ** Events: every observable action, in program order *)
Inductive event : Type :=
| Print (text : string)
| Boto3Client (service : string) (region : option string)
| Boto3Resource (service : string)
| GetCallerIdentity
| HeadBucket (bucket : string)
| CreateBucket (bucket : string) (location : option string)
| OpenRead (path : string)
| PutObject (bucket key body : string)
| DescribeStacks (stack : string)
| UpdateStack (stack url : string) (params : list StackParameter) (caps : list string)
| CreateStack (stack url : string) (params : list StackParameter) (caps : list string)
| DeleteStack (stack : string)
| WaiterWait (waiter stack : string) (delay max_attempts : nat)
| WaiterPoll (waiter stack : string)
| Sleep (seconds : nat)
| Input (prompt : string)
| DeleteAllObjects (bucket : string)
| DeleteWorkGroup (workgroup : string) (recursive : bool).

(** ** The oracle: what the outside world answers *)
Definition answer (W A : Type) : Type := W -> (failure + A) * W.

Record Services (W : Type) : Type := {
  boto3_client : string -> option string -> answer W unit;
  boto3_resource : string -> answer W unit;
  (** the region a client falls back to when none is passed *)
  session_region : W -> option string;
  (** [sts.get_caller_identity()["Account"]] *)
  get_caller_identity : answer W string;
  head_bucket : string -> answer W unit;
  create_bucket : string -> option string -> answer W unit;
  (** [open(path, "rb")] followed by [f.read()] *)
  read_file : string -> answer W string;
  put_object : string -> string -> string -> answer W unit;
  describe_stacks : string -> answer W Stack;
  update_stack :
    string -> string -> list StackParameter -> list string -> answer W unit;
  create_stack :
    string -> string -> list StackParameter -> list string -> answer W unit;
  delete_stack : string -> answer W unit;
  waiter_poll : string -> string -> answer W poll;
  sleep : nat -> W -> W;
  input : string -> answer W string;
  delete_all_objects : string -> answer W unit;
  delete_work_group : string -> bool -> answer W unit
}.
Arguments boto3_client {W}.
Arguments boto3_resource {W}.
Arguments session_region {W}.
Arguments get_caller_identity {W}.
Arguments head_bucket {W}.
Arguments create_bucket {W}.
Arguments read_file {W}.
Arguments put_object {W}.
Arguments describe_stacks {W}.
Arguments update_stack {W}.
Arguments create_stack {W}.
Arguments delete_stack {W}.
Arguments waiter_poll {W}.
Arguments sleep {W}.
Arguments input {W}.
Arguments delete_all_objects {W}.
Arguments delete_work_group {W}.

(** ** Configuration: the module-level constants of deploy.py *)
Record Config : Type := {
  STACK_NAME : string;
  TEMPLATE_FILE : string;
  REGION : string;
  PARAMETERS : Py.dict;
  S3_BUCKET_NAME : string;
  CAPABILITIES : list string
}.

(** The values written in the source. *)
Definition source_config : Config := {|
  STACK_NAME := "gsi-export-test";
  TEMPLATE_FILE := "dynamo-gsi-scheduled-export.yaml";
  REGION := "us-east-1";
  PARAMETERS :=
    [ ("DynamoTableName", "ConnectViewDataTest");
      ("GsiName", "Channel-InitiationTimestamp-index");
      ("GsiPartitionKeyAttribute", "Channel");
      ("GsiPartitionKeyValue", "CHAT");
      ("GsiSortKeyAttribute", "InitiationTimestamp");
      ("DateFormat", "ISO");
      ("S3DataPrefix", "exports");
      ("CronExpression", "rate(1 day)");
      ("DateRangeMode", "PREVIOUS_DAY");
      ("CreateTable", "true");
      ("TablePKName", "ContactId");
      ("TablePKType", "S");
      ("BillingMode", "PAY_PER_REQUEST");
      ("ExtraDateColumn", "report_date") ];
  S3_BUCKET_NAME := "";
  CAPABILITIES := ["CAPABILITY_NAMED_IAM"]
|}.

(** ** The monad: world state, exceptions, and the emitted trace *)

Definition M (W A : Type) : Type := W -> outcome A * W * list event.

Definition ret {W A} (a : A) : M W A := fun w => (Ok a, w, []).

Definition bind {W A B} (m : M W A) (f : A -> M W B) : M W B :=
  fun w =>
    let '(o, w1, t1) := m w in
    match o with
    | Ok a => let '(o2, w2, t2) := f a w1 in (o2, w2, (t1 ++ t2)%list)
    | Raise e => (Raise e, w1, t1)
    end.

Declare Scope py_scope.
Delimit Scope py_scope with py.
Notation "x <- m ;; k" := (bind m (fun x => k))
  (at level 61, m at next level, right associativity) : py_scope.
Notation "m ;; k" := (bind m (fun _ => k))
  (at level 61, right associativity) : py_scope.
Open Scope py_scope.

Definition raise {W A} (e : exn) : M W A := fun w => (Raise e, w, []).

(** An observable step that cannot fail and leaves the world as it is. *)
Definition emit {W} (ev : event) : M W unit := fun w => (Ok tt, w, [ev]).

(** [print(text)] *)
Definition print {W} (text : string) : M W unit := emit (Print text).

(** A call to the outside: logged, answered by the oracle. *)
Definition call {W A} (ev : event) (h : answer W A) : M W A :=
  fun w =>
    let '(r, w1) := h w in
    (match r with inl f => Raise (Failure f) | inr a => Ok a end, w1, [ev]).

(** The body of a [try], with the exceptions its [except] clause names
    turned into values.  [SystemExit] is never one of them. *)
Definition catching {W A} (catches : failure -> bool) (body : M W A)
  : M W (failure + A) :=
  fun w =>
    let '(o, w1, t1) := body w in
    match o with
    | Ok a => (Ok (inr a), w1, t1)
    | Raise (Failure f) =>
        if catches f then (Ok (inl f), w1, t1) else (Raise (Failure f), w1, t1)
    | Raise e => (Raise e, w1, t1)
    end.

(** [try: body  except <catches> as e: handler e] *)
Definition try_except {W A} (body : M W A) (catches : failure -> bool)
    (handler : failure -> M W A) : M W A :=
  r <- catching catches body ;;
  match r with
  | inl e => handler e
  | inr a => ret a
  end.

(** A [try] block that binds a local read after the block: the local is
    bound ([Some]) once [binding] has completed, whatever [rest] does, and
    unbound ([None]) when [binding] itself raised. *)
Definition try_binding {W L} (binding : M W L) (rest : L -> M W unit)
    (catches : failure -> bool) (handler : failure -> M W unit)
  : M W (option L) :=
  r <- catching catches binding ;;
  match r with
  | inl e => handler e ;; ret None
  | inr l =>
      r2 <- catching catches (rest l) ;;
      match r2 with
      | inl e => handler e ;; ret (Some l)
      | inr _ => ret (Some l)
      end
  end.

(** [for x in l: body x] *)
Fixpoint for_each {W A} (l : list A) (body : A -> M W unit) : M W unit :=
  match l with
  | [] => ret tt
  | x :: rest => body x ;; for_each rest body
  end.

Definition is_ClientError (f : failure) : bool :=
  match f with ClientError _ => true | Error _ _ => false end.

(** [except Exception] *)
Definition is_Exception (f : failure) : bool := true.

(** The three components of a run. *)
Definition outcome_of {A W} (r : outcome A * W * list event) : outcome A :=
  fst (fst r).
Definition world_of {A W} (r : outcome A * W * list event) : W :=
  snd (fst r).
Definition trace_of {A W} (r : outcome A * W * list event) : list event :=
  snd r.

(** The exit status of the interpreter: 0 when the script runs to its end,
    the argument of [sys.exit], 1 after an uncaught exception. *)
Definition exit_code {A} (o : outcome A) : Z :=
  match o with
  | Ok _ => 0
  | Raise (SystemExit code) => code
  | Raise (Failure _) => 1
  end.

(** ** The script *)
Section Controller.

Context {W : Type} (svc : Services W) (cfg : Config).

(** [{"region_name": REGION} if REGION else {}] *)
Definition _region_kwargs : option string :=
  if Py.truthy (REGION cfg) then Some (REGION cfg) else None.

(** [boto3.client(service, **kwargs)] *)
Definition client (service : string) (kwargs : option string) : M W unit :=
  call (Boto3Client service kwargs) (boto3_client svc service kwargs).

Definition get_account_id : M W string :=
  client "sts" _region_kwargs ;;
  call GetCallerIdentity (get_caller_identity svc).

Definition get_staging_bucket : M W string :=
  account <- get_account_id ;;
  ret ("cfn-templates-" ++ account).

(** The two handles [cfn, s3] are implicit: every operation names its
    service in its event. *)
Definition get_clients : M W unit :=
  client "cloudformation" _region_kwargs ;;
  client "s3" _region_kwargs.

(** [s3.meta.region_name] of the client built by [get_clients]. *)
Definition s3_meta_region_name : M W (option string) :=
  fun w =>
    (Ok (match _region_kwargs with
         | Some r => Some r
         | None => session_region svc w
         end), w, []).

Definition ensure_staging_bucket (bucket : string) : M W unit :=
  try_except
    (call (HeadBucket bucket) (head_bucket svc bucket) ;;
     print ("  Staging bucket exists: " ++ bucket))
    is_ClientError
    (fun _ =>
       print ("  Creating staging bucket: " ++ bucket) ;;
       region <- s3_meta_region_name ;;
       let location :=
         match region with
         | Some r =>
             if Py.truthy r && negb (r =? "us-east-1") then Some r else None
         | None => None
         end in
       call (CreateBucket bucket location) (create_bucket svc bucket location)).

Definition upload_template (bucket : string) : M W string :=
  let key := (STACK_NAME cfg) ++ "/template.yaml" in
  print ("  Uploading template to s3://" ++ bucket ++ "/" ++ key) ;;
  body <- call (OpenRead (TEMPLATE_FILE cfg)) (read_file svc (TEMPLATE_FILE cfg)) ;;
  call (PutObject bucket key body) (put_object svc bucket key body) ;;
  ret ("https://" ++ bucket ++ ".s3.amazonaws.com/" ++ key).

Definition build_params : M W (list StackParameter) :=
  let params := Py.of_items (PARAMETERS cfg) in
  params <-
    (if Py.truthy (S3_BUCKET_NAME cfg)
     then ret (Py.set params "S3BucketName" (S3_BUCKET_NAME cfg))
     else
       account <- get_account_id ;;
       ret (Py.set params "S3BucketName" ((STACK_NAME cfg) ++ "-" ++ account))) ;;
  ret (map (fun kv => {| ParameterKey := fst kv; ParameterValue := snd kv |})
           params).

(** [cfn.describe_stacks(StackName=STACK_NAME)["Stacks"][0]] *)
Definition describe : M W Stack :=
  call (DescribeStacks (STACK_NAME cfg)) (describe_stacks svc (STACK_NAME cfg)).

Definition stack_exists : M W bool :=
  try_except
    (stack <- describe ;;
     ret (negb (existsb (String.eqb (StackStatus stack)) ["DELETE_COMPLETE"])))
    is_ClientError
    (fun e =>
       if Py.contains "does not exist" (str e) then ret false
       else raise (Failure e)).

(** [time.sleep(seconds)] *)
Definition pause (seconds : nat) : M W unit :=
  fun w => (Ok tt, sleep svc seconds w, [Sleep seconds]).

(** Modelled from the spec: the blocking wait-for-terminal-status primitive
    of the provisioning service, [waiter.wait], which lives in the SDK and
    not in deploy.py.  "Fixed delay between checks, fixed maximum attempt
    count; exceeding the bound is treated as operation failure": each
    attempt is one status check, classified by the oracle as success,
    failure or not yet terminal; a non-terminal check sleeps [delay]
    seconds and tries again unless the attempts are used up.
    [remaining] counts the attempts left after the current one. *)
Fixpoint waiter_attempt (waiter stack : string) (delay remaining : nat)
  : M W unit :=
  p <- call (WaiterPoll waiter stack) (waiter_poll svc waiter stack) ;;
  match p with
  | PollSuccess => ret tt
  | PollFailure reason =>
      raise (Failure (Error "WaiterError"
               ("Waiter " ++ waiter ++ " failed: " ++ reason)))
  | PollRetry =>
      match remaining with
      | O =>
          raise (Failure (Error "WaiterError"
                   ("Waiter " ++ waiter ++ " failed: Max attempts exceeded")))
      | S k =>
          (fun w => (Ok tt, sleep svc delay w, [Sleep delay])) ;;
          waiter_attempt waiter stack delay k
      end
  end.

(** [waiter.wait(StackName=stack,
                 WaiterConfig={"Delay": delay, "MaxAttempts": max_attempts})] *)
Definition waiter_wait (waiter stack : string) (delay max_attempts : nat)
  : M W unit :=
  (fun w => (Ok tt, w, [WaiterWait waiter stack delay max_attempts])) ;;
  waiter_attempt waiter stack delay (max_attempts - 1).

(** [cfn.waiter_names]: the waiters of the CloudFormation client.  The list
    belongs to the service model of the SDK, not to deploy.py; it holds the
    three names deploy.py passes. *)
Definition waiter_names : list string :=
  [ "change_set_create_complete";
    "stack_create_complete";
    "stack_delete_complete";
    "stack_exists";
    "stack_import_complete";
    "stack_refactor_create_complete";
    "stack_refactor_execute_complete";
    "stack_rollback_complete";
    "stack_update_complete";
    "type_registration_complete" ].

(** [cfn.get_waiter(waiter_name)]: a lookup in the service model, without a
    remote call; a name that is not listed is a [ValueError]. *)
Definition get_waiter (waiter_name : string) : M W unit :=
  if existsb (String.eqb waiter_name) waiter_names then ret tt
  else raise (Failure (Error "ValueError"
                         ("Waiter does not exist: " ++ waiter_name))).

Definition wait_for_stack (waiter_name : string) : M W bool :=
  print ("  Waiting for stack " ++ waiter_name ++ "...") ;;
  get_waiter waiter_name ;;
  try_except
    (waiter_wait waiter_name (STACK_NAME cfg) 10 120 ;;
     print ("  Stack " ++ waiter_name ++ " complete.") ;;
     ret true)
    is_Exception
    (fun e =>
       print ("  Stack operation failed: " ++ str e) ;;
       ret false).

(** [resp["Stacks"][0].get("Outputs", [])] *)
Definition outputs_of (stack : Stack) : list Output :=
  match Outputs stack with Some l => l | None => [] end.

Definition print_outputs : M W unit :=
  try_except
    (stack <- describe ;;
     let outputs := outputs_of stack in
     match outputs with
     | [] => print "  No outputs found."
     | _ =>
         print (Py.nl ++ "  Stack Outputs:") ;;
         print ("  " ++ Py.times "-" 70) ;;
         for_each outputs (fun o =>
           let key := OutputKey o in
           let val := OutputValue o in
           print ("  " ++ Py.ljust 30 key ++ " " ++ val) ;;
           if key =? "ReportDashboardURL"
           then print (Py.nl ++ "  >>> Dashboard URL: " ++ val)
           else ret tt) ;;
         print ("  " ++ Py.times "-" 70)
     end)
    is_ClientError
    (fun e => print ("  Error: " ++ str e)).

Definition print_status : M W unit :=
  try_except
    (stack <- describe ;;
     print ("  Stack:  " ++ StackName stack) ;;
     print ("  Status: " ++ StackStatus stack) ;;
     match StackStatusReason stack with
     | Some reason => print ("  Reason: " ++ reason)
     | None => ret tt
     end)
    is_ClientError
    (fun e =>
       if Py.contains "does not exist" (str e)
       then print ("  Stack '" ++ (STACK_NAME cfg) ++ "' does not exist.")
       else print ("  Error: " ++ str e)).

(** *** Commands *)

(** cmd_deploy, lines 174-180: clients, staging bucket, template upload
    and parameters.  Yields [(template_url, params)]. *)
Definition deploy_stage : M W (string * list StackParameter) :=
  get_clients ;;
  print (Py.nl ++ "Deploying stack: " ++ STACK_NAME cfg) ;;
  staging_bucket <- get_staging_bucket ;;
  ensure_staging_bucket staging_bucket ;;
  template_url <- upload_template staging_bucket ;;
  params <- build_params ;;
  ret (template_url, params).

(** cmd_deploy, lines 184-208: the create-or-update branch.  [None] is the
    [return] taken inside the handler of the update; [Some success]
    carries the local [success] to the code after the branch. *)
Definition deploy_submit (exists_ : bool) (template_url : string)
    (params : list StackParameter) : M W (option bool) :=
  if exists_ then
    print "  Stack exists — updating..." ;;
    returned <-
      try_except
        (call (UpdateStack (STACK_NAME cfg) template_url params (CAPABILITIES cfg))
              (update_stack svc (STACK_NAME cfg) template_url params
                            (CAPABILITIES cfg)) ;;
         ret false)
        is_ClientError
        (fun e =>
           if Py.contains "No updates are to be performed" (str e)
           then
             print "  No changes detected. Stack is up to date." ;;
             print_outputs ;;
             ret true
           else raise (Failure e)) ;;
    if returned : bool then ret None
    else
      success <- wait_for_stack "stack_update_complete" ;;
      ret (Some success)
  else
    print "  Creating new stack..." ;;
    call (CreateStack (STACK_NAME cfg) template_url params (CAPABILITIES cfg))
         (create_stack svc (STACK_NAME cfg) template_url params
                       (CAPABILITIES cfg)) ;;
    success <- wait_for_stack "stack_create_complete" ;;
    ret (Some success).

(** cmd_deploy, lines 210-216. *)
Definition deploy_report (success : bool) : M W unit :=
  if success then
    print (Py.nl ++ "  Deployment successful!") ;;
    print_outputs
  else
    print (Py.nl ++ "  Deployment failed. Check the AWS CloudFormation console.") ;;
    print_status ;;
    raise (SystemExit 1).

(** cmd_deploy, lines 184-216: everything after the existence check. *)
Definition deploy_apply (exists_ : bool) (template_url : string)
    (params : list StackParameter) : M W unit :=
  submitted <- deploy_submit exists_ template_url params ;;
  match submitted with
  | None => ret tt
  | Some success => deploy_report success
  end.

Definition cmd_deploy : M W unit :=
  staged <- deploy_stage ;;
  exists_ <- stack_exists ;;
  deploy_apply exists_ (fst staged) (snd staged).

(** cmd_delete, lines 234-236: the statements of the first [try] block
    that bind the local [outputs]. *)
Definition fetch_outputs : M W Py.dict :=
  stack <- describe ;;
  ret (Py.comprehension OutputKey OutputValue (outputs_of stack)).

(** cmd_delete, lines 237-243: the rest of the first [try] block. *)
Definition empty_listed_buckets (outputs : Py.dict) : M W unit :=
  call (Boto3Resource "s3") (boto3_resource svc "s3") ;;
  for_each ["ExportDataBucket"; "AthenaResultsBucket"] (fun key =>
    match Py.get outputs key with
    | Some bucket_name =>
        if Py.truthy bucket_name then
          print ("  Emptying bucket: " ++ bucket_name) ;;
          call (DeleteAllObjects bucket_name)
               (delete_all_objects svc bucket_name)
        else ret tt
    | None => ret tt
    end).

(** The statements of the first [try] block, lines 234-243, unguarded. *)
Definition empty_buckets_body : M W Py.dict :=
  outputs <- fetch_outputs ;;
  empty_listed_buckets outputs ;;
  ret outputs.

Definition warn_emptying (e : failure) : M W unit :=
  print ("  Warning emptying buckets: " ++ str e).

(** cmd_delete, lines 233-245: the first cleanup step.  Yields the local
    [outputs], bound or not. *)
Definition empty_buckets : M W (option Py.dict) :=
  try_binding fetch_outputs empty_listed_buckets is_Exception warn_emptying.

Definition warn_workgroup (e : failure) : M W unit :=
  print ("  Warning deleting workgroup: " ++ str e).

(** cmd_delete, lines 248-256: the second cleanup step.  Reading the
    unbound local [outputs] raises [UnboundLocalError]. *)
Definition delete_workgroup (outputs : option Py.dict) : M W unit :=
  try_except
    (client "athena" None ;;
     match outputs with
     | None =>
         raise (Failure (Error "UnboundLocalError"
           "cannot access local variable 'outputs' where it is not associated with a value"))
     | Some d =>
         match Py.get d "AthenaWorkgroup" with
         | Some wg =>
             if Py.truthy wg then
               print ("  Deleting Athena workgroup: " ++ wg) ;;
               call (DeleteWorkGroup wg true) (delete_work_group svc wg true)
             else ret tt
         | None => ret tt
         end
     end)
    is_Exception
    warn_workgroup.

(** cmd_delete, lines 232-263: what runs once the confirmation is given. *)
Definition delete_confirmed : M W unit :=
  outputs <- empty_buckets ;;
  delete_workgroup outputs ;;
  call (DeleteStack (STACK_NAME cfg)) (delete_stack svc (STACK_NAME cfg)) ;;
  success <- wait_for_stack "stack_delete_complete" ;;
  if success then print "  Stack deleted successfully."
  else print "  Delete may have failed. Check console.".

(** [input(prompt).strip().lower()] applied to the line typed. *)
Definition normalize (line : string) : string := Py.lower (Py.strip line).

Definition confirm_prompt : string := "  Type 'yes' to confirm: ".

Definition cmd_delete : M W unit :=
  get_clients ;;
  exists_ <- stack_exists ;;
  if negb exists_ then
    print ("  Stack '" ++ STACK_NAME cfg ++ "' does not exist.")
  else
    print (Py.nl ++ "Deleting stack: " ++ STACK_NAME cfg) ;;
    print "  WARNING: This will delete all resources in the stack." ;;
    line <- call (Input confirm_prompt) (input svc confirm_prompt) ;;
    let confirm := normalize line in
    if negb (confirm =? "yes") then print "  Aborted."
    else delete_confirmed.

Definition cmd_outputs : M W unit :=
  get_clients ;;
  print_outputs.

Definition cmd_status : M W unit :=
  get_clients ;;
  print_status.

(** *** Main *)

Definition COMMANDS : list (string * M W unit) :=
  [ ("deploy", cmd_deploy);
    ("delete", cmd_delete);
    ("outputs", cmd_outputs);
    ("status", cmd_status) ].

(** [COMMANDS[name]] when [name in COMMANDS]. *)
Fixpoint command (name : string) (table : list (string * M W unit))
  : option (M W unit) :=
  match table with
  | [] => None
  | (k, c) :: rest => if k =? name then Some c else command name rest
  end.

Definition usage (argv0 : string) : M W unit :=
  print ("Usage: python " ++ argv0 ++ " <"
         ++ String.concat " | " (map fst COMMANDS) ++ ">") ;;
  print (Py.nl ++ "Commands:") ;;
  print "  deploy   Create or update the CloudFormation stack" ;;
  print "  delete   Delete the stack (empties buckets first)" ;;
  print "  outputs  Show stack outputs (dashboard URL, etc.)" ;;
  print "  status   Show current stack status" ;;
  raise (SystemExit 1).

(** The [if __name__ == "__main__":] block, on [sys.argv]. *)
Definition main (argv : list string) : M W unit :=
  match argv with
  | _ :: name :: _ =>
      match command name COMMANDS with
      | Some c => c
      | None => usage (hd "" argv)
      end
  | [argv0] => usage argv0
  | [] => raise (Failure (Error "IndexError" "list index out of range"))
  end.

End Controller.

(** ** A scripted world, for concrete runs

    The answers are fixed by a [Script]; the world state only counts the
    describe calls and status checks made so far and the seconds slept, so
    that a script can answer successive calls differently. *)
Module Mock.

Record World : Type := { describes : nat; polls : nat; slept : nat }.

Definition start : World := {| describes := 0; polls := 0; slept := 0 |}.

Record Script : Type := {
  client_answer : string -> failure + unit;
  account : failure + string;
  bucket_head : failure + unit;
  template_body : failure + string;
  describe_answer : nat -> failure + Stack;
  update_answer : failure + unit;
  create_answer : failure + unit;
  delete_answer : failure + unit;
  poll_answer : nat -> failure + poll;
  typed : failure + string;
  objects_answer : string -> failure + unit;
  workgroup_answer : failure + unit
}.

Definition fixed {A} (a : failure + A) : answer World A := fun w => (a, w).

Definition services (s : Script) : Services World := {|
  boto3_client := fun service _ => fixed (client_answer s service);
  boto3_resource := fun service => fixed (client_answer s service);
  session_region := fun _ => None;
  get_caller_identity := fixed (account s);
  head_bucket := fun _ => fixed (bucket_head s);
  create_bucket := fun _ _ => fixed (inr tt);
  read_file := fun _ => fixed (template_body s);
  put_object := fun _ _ _ => fixed (inr tt);
  describe_stacks := fun _ w =>
    (describe_answer s (describes w),
     {| describes := S (describes w); polls := polls w; slept := slept w |});
  update_stack := fun _ _ _ _ => fixed (update_answer s);
  create_stack := fun _ _ _ _ => fixed (create_answer s);
  delete_stack := fun _ => fixed (delete_answer s);
  waiter_poll := fun _ _ w =>
    (poll_answer s (polls w),
     {| describes := describes w; polls := S (polls w); slept := slept w |});
  sleep := fun seconds w =>
    {| describes := describes w; polls := polls w;
       slept := slept w + seconds |};
  input := fun _ => fixed (typed s);
  delete_all_objects := fun bucket => fixed (objects_answer s bucket);
  delete_work_group := fun _ _ => fixed (workgroup_answer s)
|}.

(** A deployed stack with three outputs. *)
Definition deployed : Stack := {|
  StackName := "gsi-export-test";
  StackStatus := "CREATE_COMPLETE";
  StackStatusReason := None;
  Outputs := Some
    [ {| OutputKey := "ExportDataBucket";
         OutputValue := "gsi-export-test-123456789012" |};
      {| OutputKey := "AthenaWorkgroup"; OutputValue := "gsi-export-wg" |};
      {| OutputKey := "ReportDashboardURL";
         OutputValue := "https://example.invalid/dashboard" |} ]
|}.

Definition with_status (status : string) (s : Stack) : Stack := {|
  StackName := StackName s;
  StackStatus := status;
  StackStatusReason := StackStatusReason s;
  Outputs := Outputs s
|}.

(** The error CloudFormation raises for a stack that is not there. *)
Definition not_found : failure :=
  ClientError
    "An error occurred (ValidationError) when calling the DescribeStacks operation: Stack with id gsi-export-test does not exist".

Definition access_denied : failure :=
  ClientError
    "An error occurred (AccessDenied) when calling the DescribeStacks operation: User is not authorized to perform: cloudformation:DescribeStacks".


(** Everything answers; the stack is deployed; every status check
    succeeds at once; the operator types [yes]. *)
Definition calm : Script := {|
  client_answer := fun _ => inr tt;
  account := inr "123456789012";
  bucket_head := inr tt;
  template_body := inr "AWSTemplateFormatVersion: 2010-09-09";
  describe_answer := fun _ => inr deployed;
  update_answer := inr tt;
  create_answer := inr tt;
  delete_answer := inr tt;
  poll_answer := fun _ => inr PollSuccess;
  typed := inr "yes";
  objects_answer := fun _ => inr tt;
  workgroup_answer := inr tt
|}.

Definition with_describe (f : nat -> failure + Stack) (s : Script) : Script := {|
  client_answer := client_answer s;
  account := account s;
  bucket_head := bucket_head s;
  template_body := template_body s;
  describe_answer := f;
  update_answer := update_answer s;
  create_answer := create_answer s;
  delete_answer := delete_answer s;
  poll_answer := poll_answer s;
  typed := typed s;
  objects_answer := objects_answer s;
  workgroup_answer := workgroup_answer s
|}.


Definition with_poll (f : nat -> failure + poll) (s : Script) : Script := {|
  client_answer := client_answer s;
  account := account s;
  bucket_head := bucket_head s;
  template_body := template_body s;
  describe_answer := describe_answer s;
  update_answer := update_answer s;
  create_answer := create_answer s;
  delete_answer := delete_answer s;
  poll_answer := f;
  typed := typed s;
  objects_answer := objects_answer s;
  workgroup_answer := workgroup_answer s
|}.

Definition with_typed (a : failure + string) (s : Script) : Script := {|
  client_answer := client_answer s;
  account := account s;
  bucket_head := bucket_head s;
  template_body := template_body s;
  describe_answer := describe_answer s;
  update_answer := update_answer s;
  create_answer := create_answer s;
  delete_answer := delete_answer s;
  poll_answer := poll_answer s;
  typed := a;
  objects_answer := objects_answer s;
  workgroup_answer := workgroup_answer s
|}.

Definition with_objects (f : string -> failure + unit) (s : Script) : Script := {|
  client_answer := client_answer s;
  account := account s;
  bucket_head := bucket_head s;
  template_body := template_body s;
  describe_answer := describe_answer s;
  update_answer := update_answer s;
  create_answer := create_answer s;
  delete_answer := delete_answer s;
  poll_answer := poll_answer s;
  typed := typed s;
  objects_answer := f;
  workgroup_answer := workgroup_answer s
|}.

Definition with_head (a : failure + unit) (s : Script) : Script := {|
  client_answer := client_answer s;
  account := account s;
  bucket_head := a;
  template_body := template_body s;
  describe_answer := describe_answer s;
  update_answer := update_answer s;
  create_answer := create_answer s;
  delete_answer := delete_answer s;
  poll_answer := poll_answer s;
  typed := typed s;
  objects_answer := objects_answer s;
  workgroup_answer := workgroup_answer s
|}.

Definition with_template (a : failure + string) (s : Script) : Script := {|
  client_answer := client_answer s;
  account := account s;
  bucket_head := bucket_head s;
  template_body := a;
  describe_answer := describe_answer s;
  update_answer := update_answer s;
  create_answer := create_answer s;
  delete_answer := delete_answer s;
  poll_answer := poll_answer s;
  typed := typed s;
  objects_answer := objects_answer s;
  workgroup_answer := workgroup_answer s
|}.

Definition with_create (a : failure + unit) (s : Script) : Script := {|
  client_answer := client_answer s;
  account := account s;
  bucket_head := bucket_head s;
  template_body := template_body s;
  describe_answer := describe_answer s;
  update_answer := update_answer s;
  create_answer := a;
  delete_answer := delete_answer s;
  poll_answer := poll_answer s;
  typed := typed s;
  objects_answer := objects_answer s;
  workgroup_answer := workgroup_answer s
|}.

(** The staging bucket is not there yet. *)
Definition unstaged : Script :=
  with_head (inl (ClientError
    "An error occurred (404) when calling the HeadBucket operation: Not Found"))
    calm.

(** The template file is not in the working directory. *)
Definition untemplated : Script :=
  with_template (inl (Error "FileNotFoundError"
    "[Errno 2] No such file or directory: 'dynamo-gsi-scheduled-export.yaml'"))
    calm.

(** The caller may not create stacks. *)
Definition uncreatable_on (s : Script) : Script :=
  with_create (inl (ClientError
    "An error occurred (AccessDenied) when calling the CreateStack operation: User is not authorized to perform: cloudformation:CreateStack"))
    s.

(** The status checks never see a terminal status. *)
Definition stalled : Script := with_poll (fun _ => inr PollRetry) calm.


(** The stack has been deleted, and is still listed. *)
Definition gone : Script :=
  with_describe (fun _ => inr (with_status "DELETE_COMPLETE" deployed)) calm.

(** An update of the stack is being rolled back. *)
Definition rolling : Script :=
  with_describe
    (fun _ => inr (with_status "UPDATE_ROLLBACK_IN_PROGRESS" deployed)) calm.


(** The caller may not describe stacks. *)
Definition denied : Script := with_describe (fun _ => inl access_denied) calm.

(** The operator types YES, [ Yes ], no. *)
Definition shouted : Script := with_typed (inr "YES") calm.
Definition padded : Script := with_typed (inr " Yes ") calm.
Definition declined : Script := with_typed (inr "no") calm.

(** The buckets cannot be emptied. *)
Definition sealed : Script :=
  with_objects
    (fun _ => inl (ClientError
       "An error occurred (AccessDenied) when calling the ListObjectVersions operation: Access Denied"))
    calm.

(** The existence check is answered, the next describe call is not. *)
Definition unreachable : Script :=
  with_describe
    (fun n =>
       match n with
       | O => inr deployed
       | S _ =>
           inl (Error "EndpointConnectionError"
                  "Could not connect to the endpoint URL: https://cloudformation.us-east-1.amazonaws.com/")
       end)
    calm.

(** The world once the existence check has been answered. *)
Definition described : World := {| describes := 1; polls := 0; slept := 0 |}.

(** The stack is not there. *)
Definition absent : Script := with_describe (fun _ => inl not_found) calm.

(** The stack is not there and the caller may not create it. *)
Definition uncreatable : Script := uncreatable_on absent.

(** Run one command line of the source configuration from [start]. *)
Definition run (s : Script) (argv : list string) :=
  main (services s) source_config argv start.

End Mock.

(** * The vocabulary of the properties *)

(** ** Counting calls in a trace *)

Definition calls (p : event -> bool) (t : list event) : nat :=
  List.length (filter p t).

Definition is_create_stack (e : event) : bool :=
  match e with CreateStack _ _ _ _ => true | _ => false end.
Definition is_update_stack (e : event) : bool :=
  match e with UpdateStack _ _ _ _ => true | _ => false end.
Definition is_delete_stack (e : event) : bool :=
  match e with DeleteStack _ => true | _ => false end.
Definition is_waiter_wait (e : event) : bool :=
  match e with WaiterWait _ _ _ _ => true | _ => false end.

(** A call that changes something remote: anything but a print, a client
    construction, a read ([get_caller_identity], [head_bucket], [open],
    [describe_stacks], a waiter and its checks), a sleep or a prompt. *)
Definition is_mutating (e : event) : bool :=
  match e with
  | CreateBucket _ _ | PutObject _ _ _
  | UpdateStack _ _ _ _ | CreateStack _ _ _ _ | DeleteStack _
  | DeleteAllObjects _ | DeleteWorkGroup _ _ => true
  | _ => false
  end.

Definition is_put_object (e : event) : bool :=
  match e with PutObject _ _ _ => true | _ => false end.
Definition is_create_bucket (e : event) : bool :=
  match e with CreateBucket _ _ => true | _ => false end.
Definition is_describe (e : event) : bool :=
  match e with DescribeStacks _ => true | _ => false end.
Definition is_input (e : event) : bool :=
  match e with Input _ => true | _ => false end.
Definition is_delete_all_objects (e : event) : bool :=
  match e with DeleteAllObjects _ => true | _ => false end.
Definition is_delete_work_group (e : event) : bool :=
  match e with DeleteWorkGroup _ _ => true | _ => false end.

(** What the staging block of a deploy emits. *)
Definition is_staging (e : event) : bool :=
  match e with
  | Print _ | Boto3Client _ _ | GetCallerIdentity | HeadBucket _
  | CreateBucket _ _ | OpenRead _ | PutObject _ _ _ => true
  | _ => false
  end.

(** A string of whitespace only. *)
Fixpoint all_space (s : string) : bool :=
  match s with
  | EmptyString => true
  | String c rest => Py.is_space c && all_space rest
  end.

(** The lines printed, in order. *)
Definition printed (t : list event) : list string :=
  flat_map (fun e => match e with Print text => [text] | _ => [] end) t.

(** The events outside an alphabet. *)
Definition outside (alphabet : event -> bool) (e : event) : bool :=
  negb (alphabet e).

(** What the read-only helpers emit. *)
Definition is_query (e : event) : bool :=
  match e with
  | Print _ | Boto3Client _ _ | GetCallerIdentity | DescribeStacks _ => true
  | _ => false
  end.

(** What [wait_for_stack] emits. *)
Definition is_waiting (e : event) : bool :=
  match e with
  | Print _ | WaiterWait _ _ _ _ | WaiterPoll _ _ | Sleep _ => true
  | _ => false
  end.

(** What the pre-delete cleanup emits. *)
Definition is_cleanup (e : event) : bool :=
  match e with
  | Print _ | Boto3Client _ _ | Boto3Resource _ | DescribeStacks _
  | DeleteAllObjects _ | DeleteWorkGroup _ _ => true
  | _ => false
  end.

(** The three calls that change the stack itself. *)
Definition is_stack_mutation (e : event) : bool :=
  is_create_stack e || is_update_stack e || is_delete_stack e.

(** The mutating stack calls of a trace, in order. *)
Definition stack_mutations (t : list event) : list event :=
  filter is_stack_mutation t.

(** ** Programs that never make a call of a given class *)

Definition silent {W A} (p : event -> bool) (m : M W A) : Prop :=
  forall w, calls p (trace_of (m w)) = 0.

(** ** Which [sys.exit] codes a program can leave with *)

Definition exits_in {W A} (P : Z -> Prop) (m : M W A) : Prop :=
  forall w code, outcome_of (m w) = Raise (SystemExit code) -> P code.

(** A program that always returns a value. *)
Definition returns {W A} (m : M W A) : Prop :=
  forall w, exists a, outcome_of (m w) = Ok a.

(** ** Where a run stands *)

(** The events of a delete between the existence check and the answer of
    the operator. *)
Definition prompt_events (cfg : Config) : list event :=
  [ Print (Py.nl ++ "Deleting stack: " ++ STACK_NAME cfg);
    Print "  WARNING: This will delete all resources in the stack.";
    Input confirm_prompt ].

(** A delete started in [w] finds the stack, asks for the confirmation and
    reads [line]; [w'] is the world and [t] the trace at that point. *)
Definition prompted {W} (svc : Services W) (cfg : Config)
    (w : W) (line : string) (w' : W) (t : list event) : Prop :=
  exists w1 t1 w2 t2,
    get_clients svc cfg w = (Ok tt, w1, t1)
    /\ stack_exists svc cfg w1 = (Ok true, w2, t2)
    /\ input svc confirm_prompt w2 = (inr line, w')
    /\ t = (t1 ++ t2 ++ prompt_events cfg)%list.

(** A deploy started in [w] completes its staging block with
    [(url, params)] and its existence check answers [exists_]; [w'] is the
    world and [t] the trace at that point. *)
Definition checked {W} (svc : Services W) (cfg : Config)
    (w : W) (url : string) (params : list StackParameter) (exists_ : bool)
    (w' : W) (t : list event) : Prop :=
  exists w1 t1 t2,
    deploy_stage svc cfg w = (Ok (url, params), w1, t1)
    /\ stack_exists svc cfg w1 = (Ok exists_, w', t2)
    /\ t = (t1 ++ t2)%list.

(** The events of an update that has nothing to do, up to the listing. *)
Definition noop_events (cfg : Config) (url : string)
    (params : list StackParameter) : list event :=
  [ Print "  Stack exists — updating...";
    UpdateStack (STACK_NAME cfg) url params (CAPABILITIES cfg);
    Print "  No changes detected. Stack is up to date." ].

(** The two events that open the create-or-update branch of a deploy: its
    banner and its call. *)
Definition submit_events (cfg : Config) (exists_ : bool) (url : string)
    (params : list StackParameter) : list event :=
  if exists_
  then [ Print "  Stack exists — updating...";
         UpdateStack (STACK_NAME cfg) url params (CAPABILITIES cfg) ]
  else [ Print "  Creating new stack...";
         CreateStack (STACK_NAME cfg) url params (CAPABILITIES cfg) ].

(** The answer of the call of that branch. *)
Definition submit_answer {W} (svc : Services W) (cfg : Config) (exists_ : bool)
    (url : string) (params : list StackParameter) (w : W)
  : (failure + unit) * W :=
  if exists_
  then update_stack svc (STACK_NAME cfg) url params (CAPABILITIES cfg) w
  else create_stack svc (STACK_NAME cfg) url params (CAPABILITIES cfg) w.

(** The waiter of that branch. *)
Definition submit_waiter (exists_ : bool) : string :=
  if exists_ then "stack_update_complete" else "stack_create_complete".

(** The update error that is not an error. *)
Definition is_no_updates (f : failure) : bool :=
  is_ClientError f && Py.contains "No updates are to be performed" (str f).


(** The lines [print_outputs] writes for a list of outputs. *)
Definition output_lines (o : Output) : list string :=
  ("  " ++ Py.ljust 30 (OutputKey o) ++ " " ++ OutputValue o)
  :: (if OutputKey o =? "ReportDashboardURL"
      then [Py.nl ++ "  >>> Dashboard URL: " ++ OutputValue o]
      else []).

Definition listing (outputs : list Output) : list string :=
  match outputs with
  | [] => ["  No outputs found."]
  | _ =>
      let rule := "  " ++ Py.times "-" 70 in
      (Py.nl ++ "  Stack Outputs:")
      :: rule :: (flat_map output_lines outputs ++ [rule])%list
  end.

(** The values passed for the parameter [key], in order. *)
Definition parameter_values (key : string) (params : list StackParameter)
  : list string :=
  map ParameterValue (filter (fun p => ParameterKey p =? key) params).

(** The source configuration with [S3_BUCKET_NAME] set. *)
Definition with_bucket (bucket : string) (cfg : Config) : Config := {|
  STACK_NAME := STACK_NAME cfg;
  TEMPLATE_FILE := TEMPLATE_FILE cfg;
  REGION := REGION cfg;
  PARAMETERS := PARAMETERS cfg;
  S3_BUCKET_NAME := bucket;
  CAPABILITIES := CAPABILITIES cfg
|}.


Arguments deploy_stage : simpl never.
Arguments stack_exists : simpl never.
Arguments print_outputs : simpl never.
Arguments print_status : simpl never.
Arguments wait_for_stack : simpl never.
Arguments get_waiter : simpl never.
Arguments get_clients : simpl never.
Arguments empty_buckets : simpl never.
Arguments delete_workgroup : simpl never.
Arguments fetch_outputs : simpl never.
Arguments empty_listed_buckets : simpl never.
Arguments empty_buckets_body : simpl never.
Arguments delete_confirmed : simpl never.
Arguments deploy_apply : simpl never.

(** * Properties *)

(** ** Counting *)

Lemma calls_app p t1 t2 : calls p (t1 ++ t2) = calls p t1 + calls p t2.
Proof. unfold calls. now rewrite filter_app, length_app. Qed.

Lemma calls_cons p e t :
  calls p (e :: t) = (if p e then 1 else 0) + calls p t.
Proof. unfold calls. simpl. now destruct (p e). Qed.

Lemma calls_nil p : calls p [] = 0.
Proof. reflexivity. Qed.

(** Counting a class of calls inside a larger class. *)
Lemma calls_within p q t :
  (forall e, p e = true -> q e = true) -> calls p t = calls p (filter q t).
Proof.
  intros Hpq. unfold calls. induction t as [|e t IH]; [reflexivity|]. simpl.
  destruct (p e) eqn:E.
  - rewrite (Hpq e E). simpl. rewrite E. simpl. now rewrite IH.
  - destruct (q e); simpl; rewrite ?E; exact IH.
Qed.

(** ** Running the monad *)
Section Runs.

Context {W : Type}.

Lemma run_bind {A B} (m : M W A) (f : A -> M W B) w :
  bind m f w =
    match outcome_of (m w) with
    | Ok a =>
        (outcome_of (f a (world_of (m w))),
         world_of (f a (world_of (m w))),
         (trace_of (m w) ++ trace_of (f a (world_of (m w))))%list)
    | Raise e => (Raise e, world_of (m w), trace_of (m w))
    end.
Proof.
  unfold bind, outcome_of, world_of, trace_of.
  destruct (m w) as [[[a|e] w1] t1]; simpl; [|reflexivity].
  now destruct (f a w1) as [[o2 w2] t2].
Qed.

Lemma bind_ok {A B} (m : M W A) (f : A -> M W B) w a w1 t1 :
  m w = (Ok a, w1, t1) ->
  bind m f w =
    (outcome_of (f a w1), world_of (f a w1), (t1 ++ trace_of (f a w1))%list).
Proof. intros H. rewrite run_bind, H. reflexivity. Qed.

Lemma bind_raise {A B} (m : M W A) (f : A -> M W B) w e w1 t1 :
  m w = (Raise e, w1, t1) -> bind m f w = (Raise e, w1, t1).
Proof. intros H. rewrite run_bind, H. reflexivity. Qed.

Lemma bind_returns {A B} (m : M W A) (f : A -> M W B) w b w2 t :
  bind m f w = (Ok b, w2, t) ->
  exists a w1 t1 t2,
    m w = (Ok a, w1, t1) /\ f a w1 = (Ok b, w2, t2) /\ t = (t1 ++ t2)%list.
Proof.
  unfold bind. destruct (m w) as [[[a|e] w1] t1]; [|discriminate].
  destruct (f a w1) as [[o2 w2'] t2] eqn:E. intros H.
  injection H as Ho Hw Ht. subst. now exists a, w1, t1, t2.
Qed.

Lemma call_returns {A} ev (h : answer W A) w a w1 t :
  call ev h w = (Ok a, w1, t) -> h w = (inr a, w1).
Proof.
  unfold call. destruct (h w) as [[f|a'] w']; [discriminate|].
  intros H. injection H as Ha Hw _. now subst.
Qed.

Lemma run_eta {A} (r : outcome A * W * list event) :
  r = (outcome_of r, world_of r, trace_of r).
Proof. now destruct r as [[o w] t]. Qed.

(** The trace of a sequence is the trace of its first part, followed by
    the trace of the rest when the first part returns. *)
Lemma trace_bind {A B} (m : M W A) (f : A -> M W B) w :
  trace_of (bind m f w) =
    (trace_of (m w) ++
     match outcome_of (m w) with
     | Ok a => trace_of (f a (world_of (m w)))
     | Raise _ => []
     end)%list.
Proof.
  rewrite run_bind. destruct (outcome_of (m w)); simpl.
  - reflexivity.
  - unfold trace_of; simpl. now rewrite app_nil_r.
Qed.

Lemma run_catching {A} catches (body : M W A) w :
  catching catches body w =
    (match outcome_of (body w) with
     | Ok a => Ok (inr a)
     | Raise (Failure f) =>
         if catches f then Ok (inl f) else Raise (Failure f)
     | Raise e => Raise e
     end, world_of (body w), trace_of (body w)).
Proof.
  unfold catching, outcome_of, world_of, trace_of.
  destruct (body w) as [[[a|[f|c]] w1] t1]; simpl; try reflexivity.
  now destruct (catches f).
Qed.

Lemma silent_ret {A} p (a : A) : silent p (ret a : M W A).
Proof. intros w. reflexivity. Qed.

Lemma silent_raise {A} p e : silent p (raise e : M W A).
Proof. intros w. reflexivity. Qed.

Lemma silent_emit p ev : p ev = false -> silent p (@emit W ev).
Proof. intros H w. unfold emit, trace_of; simpl. now rewrite calls_cons, H. Qed.

Lemma silent_print p text : p (Print text) = false -> silent p (@print W text).
Proof. apply silent_emit. Qed.

Lemma silent_call {A} p ev (h : answer W A) :
  p ev = false -> silent p (call ev h).
Proof.
  intros H w. unfold call, trace_of. destruct (h w) as [r w1]; simpl.
  now rewrite calls_cons, H.
Qed.

Lemma silent_bind {A B} p (m : M W A) (f : A -> M W B) :
  silent p m -> (forall a, silent p (f a)) -> silent p (bind m f).
Proof.
  intros Hm Hf w. rewrite trace_bind, calls_app, Hm.
  destruct (outcome_of (m w)); [apply Hf | reflexivity].
Qed.

Lemma silent_catching {A} p catches (body : M W A) :
  silent p body -> silent p (catching catches body).
Proof. intros H w. rewrite run_catching. apply H. Qed.

Lemma silent_try_except {A} p (body : M W A) catches handler :
  silent p body -> (forall e, silent p (handler e)) ->
  silent p (try_except body catches handler).
Proof.
  intros Hb Hh. apply silent_bind; [now apply silent_catching|].
  intros [e|a]; [apply Hh | apply silent_ret].
Qed.

Lemma silent_try_binding {L} p (binding : M W L) rest catches handler :
  silent p binding -> (forall l, silent p (rest l)) ->
  (forall e, silent p (handler e)) ->
  silent p (try_binding binding rest catches handler).
Proof.
  intros Hb Hr Hh. apply silent_bind; [now apply silent_catching|].
  intros [e|l].
  - apply silent_bind; [apply Hh | intros; apply silent_ret].
  - apply silent_bind; [apply silent_catching, Hr|].
    intros [e|u]; [|apply silent_ret].
    apply silent_bind; [apply Hh | intros; apply silent_ret].
Qed.

Lemma silent_for_each {A} p (l : list A) (body : A -> M W unit) :
  (forall x, silent p (body x)) -> silent p (for_each l body).
Proof.
  intros H. induction l as [|x l IH]; simpl.
  - apply silent_ret.
  - apply silent_bind; [apply H | intros; apply IH].
Qed.

End Runs.

(** Splits a [silent] goal along the structure of the program. *)
Create HintDb silent.

Ltac silence :=
  repeat first
    [ solve [auto with silent nocore]
    | apply silent_ret
    | apply silent_emit; reflexivity
    | apply silent_raise
    | apply silent_print; reflexivity
    | apply silent_call; reflexivity
    | apply silent_try_except
    | apply silent_try_binding
    | apply silent_for_each
    | apply silent_bind
    | match goal with |- forall _, _ => intro end
    | match goal with
      | |- silent _ (match ?x with _ => _ end) => destruct x
      end ].

Section Exits.

Context {W : Type}.

Lemma silent_weaken {A} (p q : event -> bool) (m : M W A) :
  (forall e, p e = true -> q e = true) -> silent q m -> silent p m.
Proof.
  intros Hpq Hq w. specialize (Hq w). unfold calls in *.
  apply length_zero_iff_nil in Hq. apply length_zero_iff_nil.
  induction (trace_of (m w)) as [|e t IH]; [reflexivity|].
  simpl in *. destruct (p e) eqn:Hp.
  - rewrite (Hpq e Hp) in Hq. discriminate.
  - apply IH. destruct (q e); [discriminate | assumption].
Qed.

Lemma silent_filter {A} p (m : M W A) w :
  silent p m -> filter p (trace_of (m w)) = [].
Proof. intros H. apply length_zero_iff_nil, H. Qed.

Lemma exits_ret {A} P (a : A) : exits_in P (ret a : M W A).
Proof. intros w c H. discriminate. Qed.

Lemma exits_failure {A} P f : exits_in P (raise (Failure f) : M W A).
Proof. intros w c H. discriminate. Qed.

Lemma exits_exit {A} (P : Z -> Prop) code :
  P code -> exits_in P (raise (SystemExit code) : M W A).
Proof. intros HP w c H. injection H as <-. exact HP. Qed.

Lemma exits_emit P ev : exits_in P (@emit W ev).
Proof. intros w c H. discriminate. Qed.

Lemma exits_print P text : exits_in P (@print W text).
Proof. apply exits_emit. Qed.

Lemma exits_call {A} P ev (h : answer W A) : exits_in P (call ev h).
Proof.
  intros w c. unfold call, outcome_of. destruct (h w) as [[f|a] w1]; discriminate.
Qed.

Lemma exits_bind {A B} P (m : M W A) (f : A -> M W B) :
  exits_in P m -> (forall a, exits_in P (f a)) -> exits_in P (bind m f).
Proof.
  intros Hm Hf w c. rewrite run_bind.
  destruct (outcome_of (m w)) as [a|e] eqn:E.
  - apply Hf.
  - unfold outcome_of at 1; simpl. intros H. injection H as ->.
    now apply (Hm w).
Qed.

Lemma exits_catching {A} P catches (body : M W A) :
  exits_in P body -> exits_in P (catching catches body).
Proof.
  intros Hb w c. rewrite run_catching. unfold outcome_of at 1; simpl.
  destruct (outcome_of (body w)) as [a|[f|c']] eqn:E; try discriminate.
  - destruct (catches f); discriminate.
  - intros H. injection H as <-. now apply (Hb w).
Qed.

Lemma exits_try_except {A} P (body : M W A) catches handler :
  exits_in P body -> (forall e, exits_in P (handler e)) ->
  exits_in P (try_except body catches handler).
Proof.
  intros Hb Hh. apply exits_bind; [now apply exits_catching|].
  intros [e|a]; [apply Hh | apply exits_ret].
Qed.

Lemma exits_try_binding {L} P (binding : M W L) rest catches handler :
  exits_in P binding -> (forall l, exits_in P (rest l)) ->
  (forall e, exits_in P (handler e)) ->
  exits_in P (try_binding binding rest catches handler).
Proof.
  intros Hb Hr Hh. apply exits_bind; [now apply exits_catching|].
  intros [e|l].
  - apply exits_bind; [apply Hh | intros; apply exits_ret].
  - apply exits_bind; [apply exits_catching, Hr|].
    intros [e|u]; [|apply exits_ret].
    apply exits_bind; [apply Hh | intros; apply exits_ret].
Qed.

Lemma exits_for_each {A} P (l : list A) (body : A -> M W unit) :
  (forall x, exits_in P (body x)) -> exits_in P (for_each l body).
Proof.
  intros H. induction l as [|x l IH]; simpl.
  - apply exits_ret.
  - apply exits_bind; [apply H | intros; apply IH].
Qed.

Lemma exits_weaken {A} (P Q : Z -> Prop) (m : M W A) :
  (forall c, P c -> Q c) -> exits_in P m -> exits_in Q m.
Proof. intros HPQ H w c E. apply HPQ, (H w c E). Qed.

(** [try: body  except Exception as e: handler e] returns whenever the
    handler does and the body never calls [sys.exit]. *)
Lemma returns_try_except {A} (body : M W A) handler :
  exits_in (fun _ => False) body -> (forall e, returns (handler e)) ->
  returns (try_except body is_Exception handler).
Proof.
  intros Hb Hh w. unfold try_except. rewrite run_bind, run_catching.
  unfold outcome_of at 1; simpl.
  destruct (outcome_of (body w)) as [a|[f|c]] eqn:E; simpl.
  - now exists a.
  - unfold world_of at 1; simpl. apply Hh.
  - destruct (Hb w c E).
Qed.

Lemma returns_print text : returns (@print W text).
Proof. intros w. now exists tt. Qed.

End Exits.

(** Splits an [exits_in] goal along the structure of the program. *)
Create HintDb exits.

Ltac no_exit :=
  repeat first
    [ solve [auto with exits nocore]
    | apply exits_ret
    | apply exits_emit
    | apply exits_failure
    | apply exits_print
    | apply exits_call
    | apply exits_try_except
    | apply exits_try_binding
    | apply exits_for_each
    | apply exits_bind
    | match goal with |- forall _, _ => intro end
    | match goal with
      | |- exits_in _ (match ?x with _ => _ end) => destruct x
      end ].

(** ** What each helper emits, and how it can end *)
Section Helpers.

Context {W : Type} (svc : Services W) (cfg : Config).

Lemma get_clients_queries : silent (outside is_query) (get_clients svc cfg).
Proof. unfold get_clients, client. silence. Qed.

Lemma get_account_id_queries :
  silent (outside is_query) (get_account_id svc cfg).
Proof. unfold get_account_id, client. silence. Qed.

Lemma describe_queries : silent (outside is_query) (describe svc cfg).
Proof. unfold describe. silence. Qed.

Lemma stack_exists_queries : silent (outside is_query) (stack_exists svc cfg).
Proof. unfold stack_exists, describe. silence. Qed.

Lemma print_outputs_queries :
  silent (outside is_query) (print_outputs svc cfg).
Proof. unfold print_outputs, describe. silence. Qed.

Lemma print_status_queries : silent (outside is_query) (print_status svc cfg).
Proof. unfold print_status, describe. silence. Qed.

Lemma pause_waiting seconds : silent (outside is_waiting) (pause svc seconds).
Proof. intros w. reflexivity. Qed.

Lemma waiter_attempt_waiting waiter stack delay remaining :
  silent (outside is_waiting)
         (waiter_attempt svc waiter stack delay remaining).
Proof.
  pose proof pause_waiting.
  induction remaining as [|k IH]; simpl; silence.
Qed.

(** The lookup of a waiter: it returns for a listed name, raises for any
    other, and makes no call. *)
Lemma get_waiter_listed waiter_name :
  In waiter_name waiter_names -> (get_waiter waiter_name : M W unit) = ret tt.
Proof.
  intros Hin. unfold get_waiter.
  replace (existsb (String.eqb waiter_name) waiter_names) with true;
    [reflexivity|].
  symmetry. apply existsb_exists. exists waiter_name.
  split; [exact Hin | apply String.eqb_refl].
Qed.


Lemma get_waiter_silent p waiter_name :
  silent p (get_waiter waiter_name : M W unit).
Proof.
  intros w. unfold get_waiter.
  destruct (existsb (String.eqb waiter_name) waiter_names); reflexivity.
Qed.

Lemma get_waiter_no_exit waiter_name :
  exits_in (fun _ => False) (get_waiter waiter_name : M W unit).
Proof.
  intros w code. unfold get_waiter.
  destruct (existsb (String.eqb waiter_name) waiter_names); discriminate.
Qed.

Lemma wait_for_stack_waiting waiter_name :
  silent (outside is_waiting) (wait_for_stack svc cfg waiter_name).
Proof.
  pose proof waiter_attempt_waiting.
  pose proof (get_waiter_silent (outside is_waiting)).
  unfold wait_for_stack, waiter_wait. silence.
Qed.

(** The staging block never touches the stack. *)
Lemma deploy_stage_no_stack_mutation :
  silent is_stack_mutation (deploy_stage svc cfg).
Proof.
  unfold deploy_stage, get_clients, get_staging_bucket, get_account_id,
    ensure_staging_bucket, upload_template, build_params, get_account_id,
    client, s3_meta_region_name.
  silence. intros w. reflexivity.
Qed.

Lemma empty_buckets_cleanup : silent (outside is_cleanup) (empty_buckets svc cfg).
Proof.
  unfold empty_buckets, fetch_outputs, empty_listed_buckets, warn_emptying,
    describe.
  silence.
Qed.

Lemma delete_workgroup_cleanup outputs :
  silent (outside is_cleanup) (delete_workgroup svc outputs).
Proof. unfold delete_workgroup, warn_workgroup, client. silence. Qed.

(** Only [deploy_report] calls [sys.exit]; every helper leaves by returning
    or by an exception. *)
Lemma stack_exists_no_exit : exits_in (fun _ => False) (stack_exists svc cfg).
Proof. unfold stack_exists, describe. no_exit. Qed.


Lemma print_outputs_no_exit : exits_in (fun _ => False) (print_outputs svc cfg).
Proof. unfold print_outputs, describe. no_exit. Qed.

Lemma print_status_no_exit : exits_in (fun _ => False) (print_status svc cfg).
Proof. unfold print_status, describe. no_exit. Qed.

Lemma pause_no_exit seconds : exits_in (fun _ => False) (pause svc seconds).
Proof. intros w c H. discriminate. Qed.

Lemma waiter_attempt_no_exit waiter stack delay remaining :
  exits_in (fun _ => False) (waiter_attempt svc waiter stack delay remaining).
Proof.
  pose proof pause_no_exit.
  induction remaining as [|k IH]; simpl; no_exit.
Qed.

Lemma wait_for_stack_returns waiter_name :
  In waiter_name waiter_names ->
  returns (wait_for_stack svc cfg waiter_name).
Proof.
  intros Hin w. unfold wait_for_stack. rewrite (get_waiter_listed _ Hin).
  rewrite run_bind. simpl. rewrite run_bind. simpl.
  match goal with
  | |- context [try_except ?b ?c ?h] =>
      destruct (returns_try_except b h) with (w := w) as [a Ha]
  end.
  - pose proof waiter_attempt_no_exit. unfold waiter_wait. no_exit.
  - intros e w'. now exists false.
  - exists a. unfold outcome_of in *. simpl. exact Ha.
Qed.

Lemma deploy_stage_no_exit : exits_in (fun _ => False) (deploy_stage svc cfg).
Proof.
  unfold deploy_stage, get_clients, get_staging_bucket, get_account_id,
    ensure_staging_bucket, upload_template, build_params, get_account_id,
    client, s3_meta_region_name.
  no_exit. intros w c H. discriminate.
Qed.

End Helpers.

Section Deploy.

Context {W : Type} (svc : Services W) (cfg : Config).

Lemma queries_no_stack_mutation {A} (m : M W A) :
  silent (outside is_query) m -> silent is_stack_mutation m.
Proof. apply silent_weaken. now intros []. Qed.

Lemma waiting_no_stack_mutation {A} (m : M W A) :
  silent (outside is_waiting) m -> silent is_stack_mutation m.
Proof. apply silent_weaken. now intros []. Qed.

Lemma deploy_report_queries success :
  silent (outside is_query) (deploy_report svc cfg success).
Proof.
  pose proof (print_outputs_queries svc cfg).
  pose proof (print_status_queries svc cfg).
  unfold deploy_report. silence.
Qed.

(** The branch issues its one call, whatever that call and the rest of the
    branch do. *)
Lemma deploy_submit_mutations exists_ url params w :
  stack_mutations (trace_of (deploy_submit svc cfg exists_ url params w)) =
    [if exists_
     then UpdateStack (STACK_NAME cfg) url params (CAPABILITIES cfg)
     else CreateStack (STACK_NAME cfg) url params (CAPABILITIES cfg)].
Proof.
  pose proof (fun n w => silent_filter _ _ w
    (waiting_no_stack_mutation _ (wait_for_stack_waiting svc cfg n))) as Hwait.
  pose proof (fun w => silent_filter _ _ w
    (queries_no_stack_mutation _ (print_outputs_queries svc cfg))) as Hout.
  unfold stack_mutations, deploy_submit. destruct exists_.
  - unfold try_except, catching, call, bind, print, emit, ret, raise, trace_of in *.
    destruct (update_stack svc _ _ _ _ w) as [[[msg|cls msg]|u] w1]; cbn.
    + destruct (Py.contains _ msg); cbn; [|reflexivity].
      specialize (Hout w1).
      destruct (print_outputs svc cfg w1) as [[[u|e] w2] t2]; cbn in *;
        rewrite ?filter_app, Hout; reflexivity.
    + reflexivity.
    + specialize (Hwait "stack_update_complete" w1).
      destruct (wait_for_stack svc cfg _ w1) as [[[u'|e] w2] t2]; cbn in *;
        rewrite ?filter_app, ?Hwait; reflexivity.
  - unfold call, bind, print, emit, ret, trace_of in *.
    destruct (create_stack svc _ _ _ _ w) as [[f|u] w1]; cbn; [reflexivity|].
    specialize (Hwait "stack_create_complete" w1).
    destruct (wait_for_stack svc cfg _ w1) as [[[u'|e] w2] t2]; cbn in *;
      rewrite ?filter_app, ?Hwait; reflexivity.
Qed.

Lemma deploy_apply_mutations exists_ url params w :
  stack_mutations (trace_of (deploy_apply svc cfg exists_ url params w)) =
    [if exists_
     then UpdateStack (STACK_NAME cfg) url params (CAPABILITIES cfg)
     else CreateStack (STACK_NAME cfg) url params (CAPABILITIES cfg)].
Proof.
  unfold deploy_apply, stack_mutations.
  rewrite trace_bind, filter_app.
  pose proof (deploy_submit_mutations exists_ url params w) as Hs.
  unfold stack_mutations in Hs. rewrite Hs.
  destruct (outcome_of _) as [[s|]|e]; try reflexivity.
  pose proof (silent_filter _ _
    (world_of (deploy_submit svc cfg exists_ url params w))
    (queries_no_stack_mutation _ (deploy_report_queries s))) as Hr.
  now rewrite Hr.
Qed.

(** A deploy that has passed its existence check continues as
    [deploy_apply]. *)
Lemma cmd_deploy_checked w url params exists_ w' t :
  checked svc cfg w url params exists_ w' t ->
  cmd_deploy svc cfg w =
    (outcome_of (deploy_apply svc cfg exists_ url params w'),
     world_of (deploy_apply svc cfg exists_ url params w'),
     (t ++ trace_of (deploy_apply svc cfg exists_ url params w'))%list).
Proof.
  intros (w1 & t1 & t2 & Hstage & Hexists & ->).
  unfold cmd_deploy.
  rewrite (bind_ok _ _ _ _ _ _ Hstage); simpl.
  rewrite (bind_ok _ _ _ _ _ _ Hexists); simpl.
  unfold outcome_of, world_of, trace_of; simpl.
  now rewrite app_assoc.
Qed.

Lemma checked_no_stack_mutation w url params exists_ w' t :
  checked svc cfg w url params exists_ w' t -> stack_mutations t = [].
Proof.
  intros (w1 & t1 & t2 & Hstage & Hexists & ->).
  pose proof (silent_filter _ _ w (deploy_stage_no_stack_mutation svc cfg)) as H1.
  pose proof (silent_filter _ _ w1
    (queries_no_stack_mutation _ (stack_exists_queries svc cfg))) as H2.
  rewrite Hstage in H1. rewrite Hexists in H2.
  unfold stack_mutations, trace_of in *; simpl in *.
  now rewrite filter_app, H1, H2.
Qed.

Lemma cmd_deploy_at_most_one w :
  List.length (stack_mutations (trace_of (cmd_deploy svc cfg w))) <= 1.
Proof.
  unfold cmd_deploy, stack_mutations.
  rewrite trace_bind, filter_app,
    (silent_filter _ _ w (deploy_stage_no_stack_mutation svc cfg)); simpl.
  destruct (outcome_of (deploy_stage svc cfg w)) as [staged|e]; [|simpl; lia].
  rewrite trace_bind, filter_app,
    (silent_filter _ _ _
       (queries_no_stack_mutation _ (stack_exists_queries svc cfg))); simpl.
  destruct (outcome_of (stack_exists svc cfg _)) as [b|e]; [|simpl; lia].
  pose proof (deploy_apply_mutations b (fst staged) (snd staged)
    (world_of (stack_exists svc cfg (world_of (deploy_stage svc cfg w))))) as H.
  unfold stack_mutations in H. rewrite H. simpl. lia.
Qed.

Lemma cmd_deploy_mutations w url params exists_ w' t :
  checked svc cfg w url params exists_ w' t ->
  stack_mutations (trace_of (cmd_deploy svc cfg w)) =
    [if exists_
     then UpdateStack (STACK_NAME cfg) url params (CAPABILITIES cfg)
     else CreateStack (STACK_NAME cfg) url params (CAPABILITIES cfg)].
Proof.
  intros H. rewrite (cmd_deploy_checked _ _ _ _ _ _ H).
  unfold trace_of at 1; simpl. unfold stack_mutations.
  rewrite filter_app.
  pose proof (checked_no_stack_mutation _ _ _ _ _ _ H) as Ht.
  pose proof (deploy_apply_mutations exists_ url params w') as Ha.
  unfold stack_mutations in *. now rewrite Ht, Ha.
Qed.

(** C1.  Every deploy issues at most one mutating stack call; and once the
    staging block has completed and the existence check has answered, it
    issues exactly one: [update_stack], and no [create_stack], when the
    check says that the stack exists; [create_stack], and no
    [update_stack], when it says that it does not. *)
Theorem deploy_issues_one_stack_mutation :
  forall w,
    List.length (stack_mutations (trace_of (cmd_deploy svc cfg w))) <= 1
    /\ forall url params exists_ w' t,
         checked svc cfg w url params exists_ w' t ->
         let issued := trace_of (cmd_deploy svc cfg w) in
         stack_mutations issued =
           [if exists_
            then UpdateStack (STACK_NAME cfg) url params (CAPABILITIES cfg)
            else CreateStack (STACK_NAME cfg) url params (CAPABILITIES cfg)]
         /\ calls is_update_stack issued = (if exists_ then 1 else 0)
         /\ calls is_create_stack issued = (if exists_ then 0 else 1).
Proof.
  intros w. split; [apply cmd_deploy_at_most_one|].
  intros url params exists_ w' t H issued.
  pose proof (cmd_deploy_mutations _ _ _ _ _ _ H) as Hm. fold issued in Hm.
  split; [exact Hm|].
  rewrite (calls_within is_update_stack is_stack_mutation),
    (calls_within is_create_stack is_stack_mutation).
  - unfold stack_mutations in Hm. rewrite Hm. now destruct exists_.
  - now intros [].
  - now intros [].
Qed.

End Deploy.

Lemma deploy_issues_one_stack_mutation_witness :
  calls is_update_stack
    (trace_of (cmd_deploy (Mock.services Mock.calm) source_config Mock.start))
  = 1
  /\ calls is_create_stack
       (trace_of
          (cmd_deploy (Mock.services Mock.absent) source_config Mock.start))
     = 1.
Proof.
  split.
  - refine (proj1 (proj2 (proj2 (deploy_issues_one_stack_mutation
      (Mock.services Mock.calm) source_config Mock.start) _ _ true _ _ _))).
    do 3 eexists. repeat split; reflexivity.
  - refine (proj2 (proj2 (proj2 (deploy_issues_one_stack_mutation
      (Mock.services Mock.absent) source_config Mock.start) _ _ false _ _ _))).
    do 3 eexists. repeat split; reflexivity.
Defined.

(** ** The existence check *)
Section Existence.

Context {W : Type} (svc : Services W) (cfg : Config).

Lemma stack_exists_described w stack w' :
  describe_stacks svc (STACK_NAME cfg) w = (inr stack, w') ->
  stack_exists svc cfg w =
    (Ok (negb (StackStatus stack =? "DELETE_COMPLETE")), w',
     [DescribeStacks (STACK_NAME cfg)]).
Proof.
  intros H. unfold stack_exists, try_except, catching, describe, call, bind, ret.
  rewrite H. simpl. now rewrite orb_false_r.
Qed.

Lemma stack_exists_client_error w msg w' :
  describe_stacks svc (STACK_NAME cfg) w = (inl (ClientError msg), w') ->
  stack_exists svc cfg w =
    (if Py.contains "does not exist" msg then Ok false
     else Raise (Failure (ClientError msg)),
     w', [DescribeStacks (STACK_NAME cfg)]).
Proof.
  intros H. unfold stack_exists, try_except, catching, describe, call, bind, ret.
  rewrite H. simpl. now destruct (Py.contains _ msg).
Qed.

Lemma stack_exists_other_error w cls msg w' :
  describe_stacks svc (STACK_NAME cfg) w = (inl (Error cls msg), w') ->
  stack_exists svc cfg w =
    (Raise (Failure (Error cls msg)), w', [DescribeStacks (STACK_NAME cfg)]).
Proof.
  intros H. unfold stack_exists, try_except, catching, describe, call, bind, ret.
  now rewrite H.
Qed.

(** C9.  When the describe call of the existence check succeeds, the check
    answers false exactly for the status DELETE_COMPLETE and true for every
    other status; a deploy that finds DELETE_COMPLETE therefore issues
    [create_stack] and no [update_stack]. *)
Theorem deleted_stack_counts_as_absent :
  forall w stack w',
    describe_stacks svc (STACK_NAME cfg) w = (inr stack, w') ->
    (StackStatus stack = "DELETE_COMPLETE" ->
     stack_exists svc cfg w = (Ok false, w', [DescribeStacks (STACK_NAME cfg)]))
    /\ (StackStatus stack <> "DELETE_COMPLETE" ->
        stack_exists svc cfg w = (Ok true, w', [DescribeStacks (STACK_NAME cfg)]))
    /\ (forall w0 url params t0,
          deploy_stage svc cfg w0 = (Ok (url, params), w, t0) ->
          StackStatus stack = "DELETE_COMPLETE" ->
          stack_mutations (trace_of (cmd_deploy svc cfg w0)) =
            [CreateStack (STACK_NAME cfg) url params (CAPABILITIES cfg)]).
Proof.
  intros w stack w' H.
  pose proof (stack_exists_described _ _ _ H) as Hrun.
  assert (Hgone : StackStatus stack = "DELETE_COMPLETE" ->
            stack_exists svc cfg w =
              (Ok false, w', [DescribeStacks (STACK_NAME cfg)])).
  { intros E. rewrite Hrun, E. reflexivity. }
  split; [exact Hgone|]. split.
  - intros E. rewrite Hrun.
    destruct (String.eqb_spec (StackStatus stack) "DELETE_COMPLETE");
      [contradiction | reflexivity].
  - intros w0 url params t0 Hstage E.
    apply (cmd_deploy_mutations svc cfg w0 url params false w'
             (t0 ++ [DescribeStacks (STACK_NAME cfg)])).
    exists w, t0, [DescribeStacks (STACK_NAME cfg)]. auto.
Qed.

End Existence.

Lemma deleted_stack_counts_as_absent_witness :
  outcome_of (stack_exists (Mock.services Mock.gone) source_config Mock.start)
    = Ok false
  /\ outcome_of (stack_exists (Mock.services Mock.rolling) source_config
                   Mock.start)
     = Ok true
  /\ calls is_create_stack
       (stack_mutations
          (trace_of (cmd_deploy (Mock.services Mock.gone) source_config
                       Mock.start)))
     = 1.
Proof.
  split; [|split].
  - rewrite (proj1 (deleted_stack_counts_as_absent (Mock.services Mock.gone)
      source_config Mock.start _ _ eq_refl) eq_refl).
    reflexivity.
  - rewrite (proj1 (proj2 (deleted_stack_counts_as_absent
      (Mock.services Mock.rolling) source_config Mock.start _ _ eq_refl))).
    + reflexivity.
    + discriminate.
  - rewrite (proj2 (proj2 (deleted_stack_counts_as_absent
      (Mock.services Mock.gone) source_config Mock.start _ _ eq_refl))
      Mock.start _ _ _ eq_refl eq_refl).
    reflexivity.
Defined.

(** ** The read paths *)
Section ReadPaths.

Context {W : Type} (svc : Services W) (cfg : Config).

(** A loop whose body only prints. *)
Lemma for_each_printing {A} (l : list A) (body : A -> M W unit)
    (lines : A -> list string) (w : W) :
  (forall x w, body x w = (Ok tt, w, map Print (lines x))) ->
  for_each l body w = (Ok tt, w, map Print (flat_map lines l)).
Proof.
  intros H. induction l as [|x l IH]; [reflexivity|].
  simpl. unfold bind. rewrite H, IH. now rewrite map_app.
Qed.

Lemma print_outputs_described w stack w' :
  describe_stacks svc (STACK_NAME cfg) w = (inr stack, w') ->
  print_outputs svc cfg w =
    (Ok tt, w',
     DescribeStacks (STACK_NAME cfg) :: map Print (listing (outputs_of stack))).
Proof.
  intros H. unfold print_outputs, try_except, catching, describe, call, bind.
  rewrite H. unfold listing.
  destruct (outputs_of stack) as [|o l]; [reflexivity|].
  unfold print, emit, ret. cbv beta iota zeta.
  rewrite (for_each_printing _ _ output_lines).
  - cbv beta iota zeta. rewrite app_nil_r. cbn [map app].
    now rewrite map_app.
  - intros x w0. unfold output_lines.
    now destruct (OutputKey x =? "ReportDashboardURL").
Qed.

(** Every [ClientError] of the describe call, "does not exist" or not, ends
    in the same handler of [print_outputs]. *)
Lemma print_outputs_client_error w msg w' :
  describe_stacks svc (STACK_NAME cfg) w = (inl (ClientError msg), w') ->
  print_outputs svc cfg w =
    (Ok tt, w', [DescribeStacks (STACK_NAME cfg); Print ("  Error: " ++ msg)]).
Proof.
  intros H. unfold print_outputs, try_except, catching, describe, call.
  unfold bind at 1. unfold bind at 1. rewrite H. reflexivity.
Qed.

Lemma print_outputs_other_error w cls msg w' :
  describe_stacks svc (STACK_NAME cfg) w = (inl (Error cls msg), w') ->
  print_outputs svc cfg w =
    (Raise (Failure (Error cls msg)), w', [DescribeStacks (STACK_NAME cfg)]).
Proof.
  intros H. unfold print_outputs, try_except, catching, describe, call.
  unfold bind at 1. unfold bind at 1. rewrite H. reflexivity.
Qed.

Lemma print_status_described w stack w' :
  describe_stacks svc (STACK_NAME cfg) w = (inr stack, w') ->
  print_status svc cfg w =
    (Ok tt, w',
     DescribeStacks (STACK_NAME cfg)
     :: Print ("  Stack:  " ++ StackName stack)
     :: Print ("  Status: " ++ StackStatus stack)
     :: match StackStatusReason stack with
        | Some reason => [Print ("  Reason: " ++ reason)]
        | None => []
        end).
Proof.
  intros H.
  unfold print_status, try_except, catching, describe, call, bind, print, emit, ret.
  rewrite H. now destruct (StackStatusReason stack).
Qed.

Lemma print_status_client_error w msg w' :
  describe_stacks svc (STACK_NAME cfg) w = (inl (ClientError msg), w') ->
  print_status svc cfg w =
    (Ok tt, w',
     [DescribeStacks (STACK_NAME cfg);
      Print (if Py.contains "does not exist" msg
             then "  Stack '" ++ STACK_NAME cfg ++ "' does not exist."
             else "  Error: " ++ msg)]).
Proof.
  intros H.
  unfold print_status, try_except, catching, describe, call, bind, print, emit, ret.
  rewrite H. simpl. now destruct (Py.contains _ msg).
Qed.

Lemma print_status_other_error w cls msg w' :
  describe_stacks svc (STACK_NAME cfg) w = (inl (Error cls msg), w') ->
  print_status svc cfg w =
    (Raise (Failure (Error cls msg)), w', [DescribeStacks (STACK_NAME cfg)]).
Proof.
  intros H.
  unfold print_status, try_except, catching, describe, call, bind, print, emit, ret.
  now rewrite H.
Qed.

End ReadPaths.

(** C4.  The stack is not there: the existence check answers false and
    [status] prints its own "does not exist" line, but [outputs] prints the
    describe error through the handler it uses for every other
    [ClientError], here next to an access-denied error. *)
Theorem not_found_in_the_read_paths :
  outcome_of (stack_exists (Mock.services Mock.absent) source_config Mock.start)
    = Ok false
  /\ Mock.run Mock.absent ["deploy.py"; "status"] =
       (Ok tt, Mock.described,
        [ Boto3Client "cloudformation" (Some "us-east-1");
          Boto3Client "s3" (Some "us-east-1");
          DescribeStacks "gsi-export-test";
          Print "  Stack 'gsi-export-test' does not exist." ])
  /\ Mock.run Mock.absent ["deploy.py"; "outputs"] =
       (Ok tt, Mock.described,
        [ Boto3Client "cloudformation" (Some "us-east-1");
          Boto3Client "s3" (Some "us-east-1");
          DescribeStacks "gsi-export-test";
          Print ("  Error: " ++ str Mock.not_found) ])
  /\ printed (trace_of (Mock.run Mock.denied ["deploy.py"; "outputs"])) =
       ["  Error: " ++ str Mock.access_denied]
  /\ printed (trace_of (Mock.run Mock.denied ["deploy.py"; "status"])) =
       ["  Error: " ++ str Mock.access_denied].
Proof. repeat split; vm_compute; reflexivity. Qed.

Lemma printed_prints (lines : list string) : printed (map Print lines) = lines.
Proof.
  unfold printed. induction lines as [|l ls IH]; [reflexivity|].
  simpl. now rewrite IH.
Qed.

(** ** The no-op update *)
Section NoOpUpdate.

Context {W : Type} (svc : Services W) (cfg : Config).

Lemma deploy_apply_noop url params w msg w' :
  update_stack svc (STACK_NAME cfg) url params (CAPABILITIES cfg) w
    = (inl (ClientError msg), w') ->
  Py.contains "No updates are to be performed" msg = true ->
  deploy_apply svc cfg true url params w =
    (outcome_of (print_outputs svc cfg w'),
     world_of (print_outputs svc cfg w'),
     (noop_events cfg url params ++ trace_of (print_outputs svc cfg w'))%list).
Proof.
  intros Hupdate Hmsg.
  unfold deploy_apply, deploy_submit, try_except, catching, call, bind,
    print, emit, ret.
  rewrite Hupdate. cbn. rewrite Hmsg.
  unfold outcome_of, world_of, trace_of.
  destruct (print_outputs svc cfg w') as [[[[]|e] w2] t2]; cbn;
    rewrite ?app_nil_r; reflexivity.
Qed.


End NoOpUpdate.


(** ** The bounded wait *)
Section Waiting.

Context {W : Type} (svc : Services W) (cfg : Config).




(** The shape of every run of [wait_for_stack]. *)
Lemma wait_for_stack_run waiter_name w :
  In waiter_name waiter_names ->
  let attempts :=
    waiter_attempt svc waiter_name (STACK_NAME cfg) 10 119 w in
  wait_for_stack svc cfg waiter_name w =
    (match outcome_of attempts with
     | Raise (SystemExit code) => Raise (SystemExit code)
     | Ok _ => Ok true
     | Raise (Failure _) => Ok false
     end,
     world_of attempts,
     Print ("  Waiting for stack " ++ waiter_name ++ "...")
     :: WaiterWait waiter_name (STACK_NAME cfg) 10 120
     :: (trace_of attempts ++
         match outcome_of attempts with
         | Raise (SystemExit _) => []
         | Ok _ => [Print ("  Stack " ++ waiter_name ++ " complete.")]
         | Raise (Failure e) => [Print ("  Stack operation failed: " ++ str e)]
         end)%list).
Proof.
  intros Hin attempts. subst attempts. unfold wait_for_stack, waiter_wait.
  rewrite (get_waiter_listed _ Hin).
  change (120 - 1) with 119.
  unfold try_except, catching, bind, print, emit, ret.
  unfold outcome_of, world_of, trace_of. cbv beta iota zeta.
  destruct (waiter_attempt svc waiter_name (STACK_NAME cfg) 10 119 w)
    as [[[[]|[f|code]] w1] t1]; cbn; rewrite ?app_nil_r; reflexivity.
Qed.



Lemma deploy_stage_no_wait : silent is_waiter_wait (deploy_stage svc cfg).
Proof.
  unfold deploy_stage, get_clients, get_staging_bucket, get_account_id,
    ensure_staging_bucket, upload_template, build_params, get_account_id,
    client, s3_meta_region_name.
  silence. intros w. reflexivity.
Qed.

Lemma queries_no_wait {A} (m : M W A) :
  silent (outside is_query) m -> silent is_waiter_wait m.
Proof. apply silent_weaken. now intros []. Qed.



(** The waiters deploy.py asks for are listed. *)
Lemma deploy_waiter_listed (exists_ : bool) :
  In (if exists_ then "stack_update_complete" else "stack_create_complete")
     waiter_names.
Proof.
  destruct exists_; unfold waiter_names;
    repeat (first [left; reflexivity | right]).
Qed.





End Waiting.


(** ** Delete *)
Section Delete.

Context {W : Type} (svc : Services W) (cfg : Config).

(** A delete that has read the operator's line either aborts or continues
    as [delete_confirmed], by the normalized line alone. *)
Lemma cmd_delete_prompted w line w' t :
  prompted svc cfg w line w' t ->
  cmd_delete svc cfg w =
    if normalize line =? "yes"
    then (outcome_of (delete_confirmed svc cfg w'),
          world_of (delete_confirmed svc cfg w'),
          (t ++ trace_of (delete_confirmed svc cfg w'))%list)
    else (Ok tt, w', (t ++ [Print "  Aborted."])%list).
Proof.
  intros (w1 & t1 & w2 & t2 & Hclients & Hexists & Hinput & ->).
  unfold cmd_delete.
  rewrite (bind_ok _ _ _ _ _ _ Hclients); cbv beta.
  rewrite (bind_ok _ _ _ _ _ _ Hexists); cbv beta. cbn [negb].
  unfold bind, print, emit, call, ret, prompt_events.
  rewrite Hinput. cbv beta iota zeta.
  unfold outcome_of, world_of, trace_of.
  destruct (normalize line =? "yes"); cbn [negb fst snd].
  - destruct (delete_confirmed svc cfg w') as [[o w3] t3]. cbn [fst snd].
    now rewrite <- !app_assoc.
  - cbn [fst snd app]. now rewrite <- !app_assoc.
Qed.

Lemma prompted_no_mutation w line w' t :
  prompted svc cfg w line w' t -> calls is_mutating t = 0.
Proof.
  intros (w1 & t1 & w2 & t2 & Hclients & Hexists & Hinput & ->).
  assert (Hq : forall A (m : M W A),
            silent (outside is_query) m -> silent is_mutating m).
  { intros A m. apply silent_weaken. now intros []. }
  pose proof (Hq _ _ (get_clients_queries svc cfg) w) as H1.
  pose proof (Hq _ _ (stack_exists_queries svc cfg) w1) as H2.
  rewrite Hclients in H1. rewrite Hexists in H2.
  unfold trace_of in *; cbn [snd] in *.
  now rewrite !calls_app, H1, H2.
Qed.

(** The first cleanup step always returns: a failure of its body leaves
    the warning as last line, and [outputs] bound exactly when the
    statements that bind it had completed. *)
Lemma empty_buckets_run w :
  let body := empty_buckets_body svc cfg w in
  empty_buckets svc cfg w =
    match outcome_of body with
    | Ok outputs => (Ok (Some outputs), world_of body, trace_of body)
    | Raise (Failure f) =>
        (Ok match outcome_of (fetch_outputs svc cfg w) with
            | Ok outputs => Some outputs
            | Raise _ => None
            end,
         world_of body,
         (trace_of body ++ [Print ("  Warning emptying buckets: " ++ str f)])%list)
    | Raise (SystemExit code) =>
        (Raise (SystemExit code), world_of body, trace_of body)
    end.
Proof.
  unfold empty_buckets, empty_buckets_body, try_binding, catching,
    warn_emptying, bind, print, emit, ret, outcome_of, world_of, trace_of.
  destruct (fetch_outputs svc cfg w) as [[[d|[f|code]] w1] t1];
    cbv beta iota zeta; cbn [fst snd is_Exception]; rewrite ?app_nil_r;
    try reflexivity.
  destruct (empty_listed_buckets svc d w1) as [[[[]|[f'|code']] w2] t2];
    cbv beta iota zeta; cbn [fst snd is_Exception]; rewrite ?app_nil_r;
    try reflexivity.
  now rewrite <- app_assoc.
Qed.

Lemma empty_buckets_body_no_exit :
  exits_in (fun _ => False) (empty_buckets_body svc cfg).
Proof.
  unfold empty_buckets_body, fetch_outputs, empty_listed_buckets, describe.
  no_exit.
Qed.

(** The second cleanup step always returns, and always starts: its first
    event is the construction of the Athena client. *)
Lemma delete_workgroup_run outputs w :
  exists w2 t2,
    delete_workgroup svc outputs w = (Ok tt, w2, Boto3Client "athena" None :: t2).
Proof.
  unfold delete_workgroup, try_except, catching, warn_workgroup, client, call,
    bind, print, emit, ret, raise.
  destruct (boto3_client svc "athena" None w) as [[f|[]] w1];
    cbv beta iota zeta; cbn [is_Exception];
    [do 2 eexists; reflexivity|].
  destruct outputs as [d|]; cbv beta iota zeta; cbn [is_Exception];
    [|do 2 eexists; reflexivity].
  destruct (Py.get d "AthenaWorkgroup") as [wg|];
    [|do 2 eexists; reflexivity].
  destruct (Py.truthy wg); [|do 2 eexists; reflexivity].
  cbv beta iota zeta.
  destruct (delete_work_group svc wg true w1) as [[f|[]] w2];
    cbv beta iota zeta; cbn [is_Exception]; do 2 eexists; reflexivity.
Qed.

(** Without [outputs] the second step cannot name the workgroup: it ends
    in its own warning and makes no [delete_work_group] call. *)
Lemma delete_workgroup_unbound w w1 :
  boto3_client svc "athena" None w = (inr tt, w1) ->
  delete_workgroup svc None w =
    (Ok tt, w1,
     [ Boto3Client "athena" None;
       Print "  Warning deleting workgroup: cannot access local variable 'outputs' where it is not associated with a value" ]).
Proof.
  intros H.
  unfold delete_workgroup, try_except, catching, warn_workgroup, client, call,
    bind, print, emit, ret, raise.
  now rewrite H.
Qed.

Lemma cleanup_no_stack_mutation {A} (m : M W A) :
  silent (outside is_cleanup) m -> silent is_stack_mutation m.
Proof. apply silent_weaken. now intros []. Qed.

(** The delete call and what follows it. *)
Lemma delete_call_run w :
  exists o w3 t3,
    (call (DeleteStack (STACK_NAME cfg)) (delete_stack svc (STACK_NAME cfg)) ;;
     success <- wait_for_stack svc cfg "stack_delete_complete" ;;
     if success then print "  Stack deleted successfully."
     else print "  Delete may have failed. Check console.") w
    = (o, w3, DeleteStack (STACK_NAME cfg) :: t3)
    /\ stack_mutations t3 = [].
Proof.
  pose proof (fun w => silent_filter _ _ w
    (waiting_no_stack_mutation _
       (wait_for_stack_waiting svc cfg "stack_delete_complete"))) as Hs.
  unfold call, bind, print, emit, trace_of in *.
  destruct (delete_stack svc (STACK_NAME cfg) w) as [[f|[]] w1];
    cbv beta iota zeta; [do 3 eexists; split; reflexivity|].
  specialize (Hs w1).
  destruct (wait_for_stack svc cfg "stack_delete_complete" w1)
    as [[[success|e] w2] t2]; cbn [fst snd] in *; cbv beta iota zeta.
  - destruct success; do 3 eexists; (split; [reflexivity|]);
      unfold stack_mutations; rewrite filter_app, Hs; reflexivity.
  - do 3 eexists. split; [reflexivity|]. exact Hs.
Qed.

(** What runs after the confirmation: both cleanup steps return, then
    [delete_stack] is called, once. *)
Lemma delete_confirmed_run w :
  exists outputs w1 t1 w2 t2 o w3 t3,
    empty_buckets svc cfg w = (Ok outputs, w1, t1)
    /\ delete_workgroup svc outputs w1 =
         (Ok tt, w2, Boto3Client "athena" None :: t2)
    /\ delete_confirmed svc cfg w =
         (o, w3,
          (t1 ++ Boto3Client "athena" None :: t2
              ++ DeleteStack (STACK_NAME cfg) :: t3)%list)
    /\ stack_mutations (trace_of (delete_confirmed svc cfg w)) =
         [DeleteStack (STACK_NAME cfg)].
Proof.
  pose proof (empty_buckets_run w) as Hrun. cbv zeta in Hrun.
  pose proof (empty_buckets_body_no_exit w) as Hexit.
  pose proof (silent_filter _ _ w
    (cleanup_no_stack_mutation _ (empty_buckets_cleanup svc cfg))) as Hs1.
  destruct (empty_buckets svc cfg w) as [[o1 w1] t1] eqn:E1.
  assert (Hok : exists outputs, o1 = Ok outputs).
  { destruct (outcome_of (empty_buckets_body svc cfg w)) as [d|[f|code]] eqn:E;
      [ | | destruct (Hexit code eq_refl)]; injection Hrun as -> _ _; eauto. }
  destruct Hok as (outputs & ->). clear Hrun Hexit.
  destruct (delete_workgroup_run outputs w1) as (w2 & t2 & E2).
  pose proof (silent_filter _ _ w1
    (cleanup_no_stack_mutation _ (delete_workgroup_cleanup svc outputs))) as Hs2.
  rewrite E2 in Hs2.
  unfold trace_of in Hs1, Hs2; cbn [snd] in Hs1, Hs2.
  destruct (delete_call_run w2) as (o & w3 & t3 & E3 & Hs3).
  exists outputs, w1, t1, w2, t2, o, w3, t3.
  assert (Hconfirmed : delete_confirmed svc cfg w =
            (o, w3,
             (t1 ++ Boto3Client "athena" None :: t2
                 ++ DeleteStack (STACK_NAME cfg) :: t3)%list)).
  { unfold delete_confirmed.
    rewrite (bind_ok _ _ _ _ _ _ E1); cbv beta.
    rewrite (bind_ok _ _ _ _ _ _ E2); cbv beta.
    rewrite E3. unfold outcome_of, world_of, trace_of; cbn [fst snd].
    reflexivity. }
  repeat split; try assumption.
  rewrite Hconfirmed. unfold stack_mutations, trace_of in *; cbn [snd].
  rewrite filter_app, Hs1. cbn [app].
  change (Boto3Client "athena" None :: t2 ++ DeleteStack (STACK_NAME cfg) :: t3)
    with ((Boto3Client "athena" None :: t2)
          ++ DeleteStack (STACK_NAME cfg) :: t3)%list.
  rewrite filter_app, Hs2. cbn. now rewrite Hs3.
Qed.

End Delete.

Lemma no_mutation_no_stack_mutation t :
  calls is_mutating t = 0 -> stack_mutations t = [].
Proof.
  intros H. apply length_zero_iff_nil.
  change (calls is_stack_mutation t = 0).
  rewrite (calls_within is_stack_mutation is_mutating) by now intros [].
  unfold calls in H. apply length_zero_iff_nil in H. now rewrite H.
Qed.

Section Confirmation.

Context {W : Type} (svc : Services W) (cfg : Config).

(** C2, as the code has it.  On an existing stack, when the line typed at
    the prompt, stripped and lowercased, is not [yes], the delete prints
    "Aborted." and returns at once: nothing follows the prompt but that
    line, no mutating call is made (no [delete_stack], no cleanup), and the
    exit status is 0. *)
Theorem delete_aborts_unless_confirmed :
  forall argv0 w line w' t,
    prompted svc cfg w line w' t ->
    normalize line <> "yes" ->
    let run := main svc cfg [argv0; "delete"] w in
    run = (Ok tt, w', (t ++ [Print "  Aborted."])%list)
    /\ calls is_delete_stack (trace_of run) = 0
    /\ calls is_mutating (trace_of run) = 0
    /\ exit_code (outcome_of run) = 0%Z.
Proof.
  intros argv0 w line w' t Hprompted Hline run.
  assert (Hrun : run = (Ok tt, w', (t ++ [Print "  Aborted."])%list)).
  { unfold run. cbn [main command COMMANDS String.eqb Ascii.eqb Bool.eqb].
    rewrite (cmd_delete_prompted _ _ _ _ _ _ Hprompted).
    destruct (String.eqb_spec (normalize line) "yes"); [contradiction|].
    reflexivity. }
  pose proof (prompted_no_mutation _ _ _ _ _ _ Hprompted) as Hquiet.
  rewrite Hrun. unfold trace_of, outcome_of; cbn [fst snd].
  split; [reflexivity|]. split; [|split; [|reflexivity]].
  - rewrite (calls_within is_delete_stack is_mutating) by now intros [].
    rewrite filter_app.
    unfold calls in Hquiet. apply length_zero_iff_nil in Hquiet.
    now rewrite Hquiet.
  - now rewrite calls_app, Hquiet.
Qed.

(** C10.  The line typed at the prompt is stripped and lowercased before
    it is compared with [yes]: when the result is [yes] the delete goes on
    to the cleanup and issues [delete_stack], once; when it is anything
    else the delete aborts without a mutating stack call.  [YES] and
    [ Yes ] normalize to [yes]. *)
Theorem confirmation_is_normalized :
  (forall line, normalize line = Py.lower (Py.strip line))
  /\ normalize "YES" = "yes"
  /\ normalize " Yes " = "yes"
  /\ forall w line w' t,
       prompted svc cfg w line w' t ->
       (normalize line = "yes" ->
        cmd_delete svc cfg w =
          (outcome_of (delete_confirmed svc cfg w'),
           world_of (delete_confirmed svc cfg w'),
           (t ++ trace_of (delete_confirmed svc cfg w'))%list)
        /\ stack_mutations (trace_of (cmd_delete svc cfg w)) =
             [DeleteStack (STACK_NAME cfg)])
       /\ (normalize line <> "yes" ->
           cmd_delete svc cfg w = (Ok tt, w', (t ++ [Print "  Aborted."])%list)
           /\ stack_mutations (trace_of (cmd_delete svc cfg w)) = []).
Proof.
  split; [reflexivity|]. split; [reflexivity|]. split; [reflexivity|].
  intros w line w' t Hprompted.
  pose proof (cmd_delete_prompted _ _ _ _ _ _ Hprompted) as Hrun.
  pose proof (no_mutation_no_stack_mutation _
    (prompted_no_mutation _ _ _ _ _ _ Hprompted)) as Hquiet.
  unfold stack_mutations in *.
  destruct (String.eqb_spec (normalize line) "yes") as [Hyes|Hno];
    (split; [intros Hy | intros Hn]); try contradiction;
    rewrite Hrun; (split; [reflexivity|]);
    unfold trace_of at 1; cbn [snd]; rewrite filter_app, Hquiet; cbn [app].
  - destruct (delete_confirmed_run svc cfg w')
      as (_ & _ & _ & _ & _ & _ & _ & _ & _ & _ & _ & Hm).
    exact Hm.
  - reflexivity.
Qed.

End Confirmation.

Lemma delete_aborts_unless_confirmed_witness :
  calls is_mutating
    (trace_of (Mock.run Mock.declined ["deploy.py"; "delete"])) = 0
  /\ exit_code (outcome_of (Mock.run Mock.declined ["deploy.py"; "delete"]))
     = 0%Z.
Proof.
  assert (Hprompted :
    { t & prompted (Mock.services Mock.declined) source_config Mock.start
            "no" Mock.described t }).
  { eexists. do 4 eexists. repeat split; reflexivity. }
  destruct Hprompted as (t & Hprompted).
  assert (Hline : normalize "no" <> "yes") by discriminate.
  destruct (delete_aborts_unless_confirmed (Mock.services Mock.declined)
    source_config "deploy.py" _ _ _ _ Hprompted Hline)
    as (_ & _ & Hquiet & Hexit).
  split; [exact Hquiet | exact Hexit].
Defined.

(** C2, as stated, fails on the code: [YES] is not the token [yes], the
    delete still goes through. *)
Lemma uppercase_confirmation_deletes :
  "YES" <> "yes"
  /\ (exists t,
        prompted (Mock.services Mock.shouted) source_config Mock.start
          "YES" Mock.described t)
  /\ stack_mutations
       (trace_of (Mock.run Mock.shouted ["deploy.py"; "delete"]))
     = [DeleteStack "gsi-export-test"]
  /\ calls is_mutating
       (trace_of (Mock.run Mock.shouted ["deploy.py"; "delete"])) = 3
  /\ List.last (printed
       (trace_of (Mock.run Mock.shouted ["deploy.py"; "delete"]))) ""
     = "  Stack deleted successfully.".
Proof.
  split; [discriminate|]. split.
  - eexists. do 4 eexists. repeat split; reflexivity.
  - repeat split; vm_compute; reflexivity.
Qed.

Lemma confirmation_is_normalized_witness :
  stack_mutations (trace_of (cmd_delete (Mock.services Mock.padded)
                               source_config Mock.start))
    = [DeleteStack "gsi-export-test"]
  /\ stack_mutations (trace_of (cmd_delete (Mock.services Mock.declined)
                                  source_config Mock.start))
     = [].
Proof.
  assert (Hpadded :
    { t & prompted (Mock.services Mock.padded) source_config Mock.start
            " Yes " Mock.described t }).
  { eexists. do 4 eexists. repeat split; reflexivity. }
  assert (Hdeclined :
    { t & prompted (Mock.services Mock.declined) source_config Mock.start
            "no" Mock.described t }).
  { eexists. do 4 eexists. repeat split; reflexivity. }
  destruct Hpadded as (t1 & Hpadded). destruct Hdeclined as (t2 & Hdeclined).
  split.
  - destruct (confirmation_is_normalized (Mock.services Mock.padded)
      source_config) as (_ & _ & _ & H).
    destruct (H _ _ _ _ Hpadded) as (Hyes & _).
    exact (proj2 (Hyes eq_refl)).
  - destruct (confirmation_is_normalized (Mock.services Mock.declined)
      source_config) as (_ & _ & _ & H).
    destruct (H _ _ _ _ Hdeclined) as (_ & Hno).
    apply Hno. discriminate.
Defined.

(** ** Parameter assembly *)
Section Parameters.

Lemma set_keys d k v k' :
  In k' (map fst (Py.set d k v)) -> k' = k \/ In k' (map fst d).
Proof.
  induction d as [|[k0 v0] d IH]; simpl.
  - intros [H|[]]; auto.
  - destruct (String.eqb_spec k0 k) as [->|Hne]; simpl.
    + intros [H|H]; auto.
    + intros [H|H]; auto. destruct (IH H); auto.
Qed.

Lemma set_unique d k v :
  NoDup (map fst d) -> NoDup (map fst (Py.set d k v)).
Proof.
  induction d as [|[k0 v0] d IH]; simpl; intros Hd.
  - constructor; [intros [] | constructor].
  - inversion Hd as [|? ? Hnotin Hrest]; subst.
    destruct (String.eqb_spec k0 k) as [->|Hne]; simpl.
    + now constructor.
    + constructor; [|now apply IH].
      intros Hin. destruct (set_keys _ _ _ _ Hin); [congruence | contradiction].
Qed.

Lemma comprehension_unique {A} (key value : A -> string) (l : list A) :
  NoDup (map fst (Py.comprehension key value l)).
Proof.
  unfold Py.comprehension.
  assert (H : forall acc, NoDup (map fst acc) ->
            NoDup (map fst (fold_left
              (fun d o => Py.set d (key o) (value o)) l acc))).
  { induction l as [|x l IH]; simpl; intros acc Hacc; [exact Hacc|].
    apply IH, set_unique, Hacc. }
  apply H. constructor.
Qed.

(** After [d[k] = v] the dict has one entry for [k], and it holds [v]. *)
Lemma set_values d k v :
  NoDup (map fst d) ->
  map snd (filter (fun kv => fst kv =? k) (Py.set d k v)) = [v].
Proof.
  induction d as [|[k0 v0] d IH]; simpl; intros Hd.
  - now rewrite String.eqb_refl.
  - inversion Hd as [|? ? Hnotin Hrest]; subst.
    destruct (String.eqb_spec k0 k) as [->|Hne]; simpl.
    + rewrite String.eqb_refl. simpl. f_equal.
      assert (Hnone : filter (fun kv => fst kv =? k) d = []).
      { clear -Hnotin. induction d as [|[k1 v1] d IH]; [reflexivity|].
        simpl in *. destruct (String.eqb_spec k1 k) as [->|Hne].
        - destruct Hnotin. now left.
        - apply IH. intros H. apply Hnotin. now right. }
      now rewrite Hnone.
    + destruct (String.eqb_spec k0 k); [contradiction|]. now apply IH.
Qed.

Lemma parameter_values_set d k v :
  NoDup (map fst d) ->
  parameter_values k
    (map (fun kv => {| ParameterKey := fst kv; ParameterValue := snd kv |})
         (Py.set d k v)) = [v].
Proof.
  intros Hd. rewrite <- (set_values d k v Hd). unfold parameter_values.
  induction (Py.set d k v) as [|[k0 v0] l IH]; [reflexivity|].
  simpl. destruct (k0 =? k); simpl; now rewrite IH.
Qed.

Context {W : Type} (svc : Services W).

(** C7.  Without a bucket override the parameters built for a deploy
    carry exactly one [S3BucketName], equal to the stack name, a hyphen and
    the account id that [get_account_id] returned; with an override they
    carry the override, and the account is not asked for.  For the source
    configuration and the account 123456789012 the value is
    [gsi-export-test-123456789012].  The parameters a deploy stages are
    those: without an override their [S3BucketName] is the stack name, a
    hyphen and an account id answered by the identity service. *)
Theorem build_params_bucket_name :
  (forall cfg w account w1 t1,
     S3_BUCKET_NAME cfg = "" ->
     get_account_id svc cfg w = (Ok account, w1, t1) ->
     exists params,
       build_params svc cfg w = (Ok params, w1, t1)
       /\ parameter_values "S3BucketName" params
          = [STACK_NAME cfg ++ "-" ++ account])
  /\ (forall cfg w,
        S3_BUCKET_NAME cfg <> "" ->
        exists params,
          build_params svc cfg w = (Ok params, w, [])
          /\ parameter_values "S3BucketName" params = [S3_BUCKET_NAME cfg])
  /\ (forall w w1 t1,
        get_account_id svc source_config w = (Ok "123456789012", w1, t1) ->
        exists params,
          build_params svc source_config w = (Ok params, w1, t1)
          /\ parameter_values "S3BucketName" params
             = ["gsi-export-test-123456789012"])
  /\ (forall cfg w url params w1 t1,
        S3_BUCKET_NAME cfg = "" ->
        deploy_stage svc cfg w = (Ok (url, params), w1, t1) ->
        exists account w' w'',
          get_caller_identity svc w' = (inr account, w'')
          /\ parameter_values "S3BucketName" params
             = [STACK_NAME cfg ++ "-" ++ account]).
Proof.
  assert (Hderived : forall cfg w account w1 t1,
     S3_BUCKET_NAME cfg = "" ->
     get_account_id svc cfg w = (Ok account, w1, t1) ->
     exists params,
       build_params svc cfg w = (Ok params, w1, t1)
       /\ parameter_values "S3BucketName" params
          = [STACK_NAME cfg ++ "-" ++ account]).
  { intros cfg w account w1 t1 Hnone Haccount.
    unfold build_params. rewrite Hnone. cbn [Py.truthy].
    unfold bind at 1 2. rewrite Haccount. cbv beta iota zeta.
    unfold ret. eexists. split; [now rewrite !app_nil_r|].
    apply parameter_values_set, comprehension_unique. }
  split; [exact Hderived|]. split.
  - intros cfg w Hset. unfold build_params.
    destruct (S3_BUCKET_NAME cfg) as [|c rest] eqn:E; [contradiction|].
    cbn [Py.truthy]. unfold bind, ret. eexists. split; [reflexivity|].
    apply parameter_values_set, comprehension_unique.
  - split.
    + intros w w1 t1 Haccount.
      exact (Hderived source_config w "123456789012" w1 t1 eq_refl Haccount).
    + intros cfg w url params w1 t1 Hnone Hstage.
      unfold deploy_stage in Hstage.
      apply bind_returns in Hstage as (? & wa & ? & ? & _ & Hstage & _).
      apply bind_returns in Hstage as (? & wb & ? & ? & _ & Hstage & _).
      apply bind_returns in Hstage as (bucket & wc & ? & ? & _ & Hstage & _).
      apply bind_returns in Hstage as (? & wd & ? & ? & _ & Hstage & _).
      apply bind_returns in Hstage as (url' & we & ? & ? & _ & Hstage & _).
      apply bind_returns in Hstage as (params' & wf & ? & ? & Hbuild & Hret & _).
      injection Hret as _ -> _.
      pose proof Hbuild as Hbuilt. unfold build_params in Hbuild.
      rewrite Hnone in Hbuild. cbn [Py.truthy] in Hbuild.
      apply bind_returns in Hbuild as (d & wg & ? & ? & Haccount & _ & _).
      apply bind_returns in Haccount as (account & wh & tg & ? & Haccount & _ & _).
      destruct (Hderived cfg we account wh tg Hnone Haccount)
        as (built & Hsame & Hvalues).
      rewrite Hsame in Hbuilt. injection Hbuilt as -> _ _.
      unfold get_account_id in Haccount.
      apply bind_returns in Haccount as (? & wi & ? & ? & _ & Hcall & _).
      apply call_returns in Hcall.
      now exists account, wi, wh.
Qed.

End Parameters.

Lemma build_params_bucket_name_witness :
  (exists params,
     build_params (Mock.services Mock.calm) source_config Mock.start
       = (Ok params, Mock.start,
          [Boto3Client "sts" (Some "us-east-1"); GetCallerIdentity])
     /\ parameter_values "S3BucketName" params
        = ["gsi-export-test-123456789012"])
  /\ (exists params,
        build_params (Mock.services Mock.calm)
          (with_bucket "my-export-bucket" source_config) Mock.start
          = (Ok params, Mock.start, [])
        /\ parameter_values "S3BucketName" params = ["my-export-bucket"])
  /\ (exists url params t account,
        deploy_stage (Mock.services Mock.calm) source_config Mock.start
          = (Ok (url, params), Mock.start, t)
        /\ parameter_values "S3BucketName" params
           = ["gsi-export-test" ++ "-" ++ account]).
Proof.
  destruct (build_params_bucket_name (Mock.services Mock.calm))
    as (Hderived & Hoverride & Hsource & Hstaged).
  split; [|split].
  - exact (Hsource Mock.start _ _ eq_refl).
  - apply (Hoverride (with_bucket "my-export-bucket" source_config) Mock.start).
    discriminate.
  - assert (Hstage :
      { url & { params & { t &
        deploy_stage (Mock.services Mock.calm) source_config Mock.start
          = (Ok (url, params), Mock.start, t) } } }).
    { do 3 eexists. reflexivity. }
    destruct Hstage as (url & params & t & Hstage).
    destruct (Hstaged source_config _ _ _ _ _ eq_refl Hstage)
      as (account & _ & _ & _ & Hvalues).
    now exists url, params, t, account.
Defined.

(** ** Exit status *)
Section ExitStatus.

Context {W : Type} (svc : Services W) (cfg : Config).

Lemma wait_for_stack_no_exit waiter_name :
  exits_in (fun _ => False) (wait_for_stack svc cfg waiter_name).
Proof.
  pose proof (waiter_attempt_no_exit svc).
  pose proof (@get_waiter_no_exit W).
  unfold wait_for_stack, waiter_wait. no_exit.
Qed.




(** [sys.exit] in a deploy always carries 1. *)
Lemma cmd_deploy_exits_with_1 :
  exits_in (fun code => code = 1%Z) (cmd_deploy svc cfg).
Proof.
  assert (Hweak : forall A (m : M W A),
            exits_in (fun _ => False) m -> exits_in (fun code => code = 1%Z) m).
  { intros A m. apply exits_weaken. intros c []. }
  pose proof (Hweak _ _ (deploy_stage_no_exit svc cfg)).
  pose proof (Hweak _ _ (stack_exists_no_exit svc cfg)).
  pose proof (Hweak _ _ (print_outputs_no_exit svc cfg)).
  pose proof (Hweak _ _ (print_status_no_exit svc cfg)).
  pose proof (fun n => Hweak _ _ (wait_for_stack_no_exit n)).
  unfold cmd_deploy, deploy_apply, deploy_submit, deploy_report.
  no_exit. now apply exits_exit.
Qed.







End ExitStatus.



(** * Further properties of the script *)

(** ** Staging *)
Section Staging.

Context {W : Type} (svc : Services W) (cfg : Config).

Lemma bind_raises {A B} (m : M W A) (f : A -> M W B) w e w2 t :
  bind m f w = (Raise e, w2, t) ->
  m w = (Raise e, w2, t)
  \/ exists a w1 t1 t2,
       m w = (Ok a, w1, t1) /\ f a w1 = (Raise e, w2, t2)
       /\ t = (t1 ++ t2)%list.
Proof.
  unfold bind. destruct (m w) as [[[a|e'] w1] t1];
    [|intros H; injection H as He Hw Ht; subst; now left].
  destruct (f a w1) as [[o2 w2'] t2] eqn:E. intros H.
  injection H as Ho Hw Ht. subst. right. now exists a, w1, t1, t2.
Qed.

(** X1.  [ensure_staging_bucket] leaves an existing bucket alone, and
    creates nothing when the check fails with anything but a
    [ClientError]: that exception leaves the function. *)
Theorem staging_bucket_is_not_recreated :
  forall bucket w answer w1,
    head_bucket svc bucket w = (answer, w1) ->
    (forall msg, answer <> inl (ClientError msg)) ->
    ensure_staging_bucket svc cfg bucket w =
      (match answer with
       | inr _ => Ok tt
       | inl f => Raise (Failure f)
       end, w1,
       HeadBucket bucket
       :: match answer with
          | inr _ => [Print ("  Staging bucket exists: " ++ bucket)]
          | inl _ => []
          end)
    /\ calls is_create_bucket
         (trace_of (ensure_staging_bucket svc cfg bucket w)) = 0.
Proof.
  intros bucket w answer w1 Hhead Hother.
  assert (Hrun : ensure_staging_bucket svc cfg bucket w =
      (match answer with
       | inr _ => Ok tt
       | inl f => Raise (Failure f)
       end, w1,
       HeadBucket bucket
       :: match answer with
          | inr _ => [Print ("  Staging bucket exists: " ++ bucket)]
          | inl _ => []
          end)).
  { unfold ensure_staging_bucket, try_except, catching, call, bind, print,
      emit, ret.
    rewrite Hhead. destruct answer as [[msg|cls msg]|[]]; cbn.
    - now destruct (Hother msg).
    - reflexivity.
    - reflexivity. }
  split; [exact Hrun|]. rewrite Hrun.
  now destruct answer as [[msg|cls msg]|[]].
Qed.

(** X2.  When the check fails with a [ClientError] the bucket is created,
    once, and the outcome is that of [create_bucket].  The location
    constraint follows the region: none for an empty region and for
    us-east-1, the region itself otherwise. *)
Theorem staging_bucket_is_created_in_region :
  forall bucket w msg w1,
    head_bucket svc bucket w = (inl (ClientError msg), w1) ->
    let region :=
      match _region_kwargs cfg with
      | Some r => Some r
      | None => session_region svc w1
      end in
    let location :=
      match region with
      | Some r => if (r =? "") || (r =? "us-east-1") then None else Some r
      | None => None
      end in
    ensure_staging_bucket svc cfg bucket w =
      (match fst (create_bucket svc bucket location w1) with
       | inr _ => Ok tt
       | inl f => Raise (Failure f)
       end,
       snd (create_bucket svc bucket location w1),
       [ HeadBucket bucket;
         Print ("  Creating staging bucket: " ++ bucket);
         CreateBucket bucket location ]).
Proof.
  intros bucket w msg w1 Hhead region location.
  unfold ensure_staging_bucket, try_except, catching, call, bind, print,
    emit, ret, s3_meta_region_name.
  rewrite Hhead. cbn [is_ClientError]. cbv beta iota zeta.
  fold region.
  assert (Hloc : match region with
                 | Some r =>
                     if Py.truthy r && negb (r =? "us-east-1")
                     then Some r else None
                 | None => None
                 end = location).
  { subst location. destruct region as [r|]; [|reflexivity].
    destruct r as [|c r]; [reflexivity|]. cbn [Py.truthy andb orb].
    now destruct (String c r =? "us-east-1"). }
  rewrite Hloc.
  destruct (create_bucket svc bucket location w1) as [[f|[]] w2]; reflexivity.
Qed.

End Staging.

Section StagedTemplate.

Context {W : Type} (svc : Services W) (cfg : Config).

Lemma staging_no_upload {A} (m : M W A) :
  silent (outside is_query) m -> silent is_put_object m.
Proof. apply silent_weaken. now intros []. Qed.

Lemma ensure_staging_bucket_no_upload bucket :
  silent is_put_object (ensure_staging_bucket svc cfg bucket).
Proof.
  unfold ensure_staging_bucket, s3_meta_region_name. silence.
  intros w. reflexivity.
Qed.

Lemma build_params_queries : silent (outside is_query) (build_params svc cfg).
Proof. unfold build_params, get_account_id, client. silence. Qed.

Lemma get_staging_bucket_queries :
  silent (outside is_query) (get_staging_bucket svc cfg).
Proof. unfold get_staging_bucket, get_account_id, client. silence. Qed.

(** The account a successful [get_account_id] returns is an answer of the
    identity service. *)
Lemma get_account_id_returns w account w1 t1 :
  get_account_id svc cfg w = (Ok account, w1, t1) ->
  exists w0, get_caller_identity svc w0 = (inr account, w1).
Proof.
  unfold get_account_id. intros H.
  apply bind_returns in H as (? & w0 & ? & ? & _ & Hcall & _).
  apply call_returns in Hcall. now exists w0.
Qed.

Lemma upload_template_returns bucket w url w1 t1 :
  upload_template svc cfg bucket w = (Ok url, w1, t1) ->
  exists body w0 w0',
    read_file svc (TEMPLATE_FILE cfg) w0 = (inr body, w0')
    /\ t1 = [ Print ("  Uploading template to s3://" ++ bucket ++ "/"
                     ++ STACK_NAME cfg ++ "/template.yaml");
              OpenRead (TEMPLATE_FILE cfg);
              PutObject bucket (STACK_NAME cfg ++ "/template.yaml") body ]
    /\ url = "https://" ++ bucket ++ ".s3.amazonaws.com/"
             ++ STACK_NAME cfg ++ "/template.yaml".
Proof.
  unfold upload_template, bind, print, emit, call, ret. cbv beta iota zeta.
  destruct (read_file svc (TEMPLATE_FILE cfg) w) as [[f|body] wb] eqn:Hread;
    [discriminate|].
  destruct (put_object svc bucket (STACK_NAME cfg ++ "/template.yaml") body wb)
    as [[f|[]] wc]; [discriminate|].
  intros H. injection H as Hurl Hw Ht. subst.
  exists body, w, wb. repeat split. exact Hread.
Qed.

(** X3.  A deploy whose staging block completes has written the template
    exactly once, under [<stack>/template.yaml] in the bucket
    [cfn-templates-<account>]; the object holds what was read from the
    template file, and the URL handed to the stack call is the URL of that
    object. *)
Theorem deploy_uses_uploaded_template :
  forall w url params w1 t1,
    deploy_stage svc cfg w = (Ok (url, params), w1, t1) ->
    exists account body,
      filter is_put_object t1 =
        [PutObject ("cfn-templates-" ++ account)
                   (STACK_NAME cfg ++ "/template.yaml") body]
      /\ url = "https://" ++ ("cfn-templates-" ++ account)
               ++ ".s3.amazonaws.com/" ++ STACK_NAME cfg ++ "/template.yaml"
      /\ (exists w0 w0', get_caller_identity svc w0 = (inr account, w0'))
      /\ (exists w0 w0',
            read_file svc (TEMPLATE_FILE cfg) w0 = (inr body, w0')).
Proof.
  intros w url params w1 t1 Hstage. unfold deploy_stage in Hstage.
  apply bind_returns in Hstage as (? & wa & ta & ? & Hclients & Hstage & ->).
  apply bind_returns in Hstage as (? & wb & tb & ? & Hprint & Hstage & ->).
  apply bind_returns in Hstage as (bucket & wc & tc & ? & Hbucket & Hstage & ->).
  apply bind_returns in Hstage as (? & wd & td & ? & Hensure & Hstage & ->).
  apply bind_returns in Hstage as (url' & we & te & ? & Hupload & Hstage & ->).
  apply bind_returns in Hstage as (params' & wf & tf & ? & Hbuild & Hret & ->).
  unfold ret in Hret. injection Hret as -> -> _ <-.
  pose proof (silent_filter _ _ w
    (staging_no_upload _ (get_clients_queries svc cfg))) as H1.
  pose proof (silent_filter _ _ wb
    (staging_no_upload _ get_staging_bucket_queries)) as H3.
  pose proof (silent_filter _ _ wc (ensure_staging_bucket_no_upload bucket))
    as H4.
  pose proof (silent_filter _ _ we (staging_no_upload _ build_params_queries))
    as H6.
  rewrite Hclients in H1. rewrite Hbucket in H3. rewrite Hensure in H4.
  rewrite Hbuild in H6. unfold trace_of in *; cbn [snd] in *.
  unfold get_staging_bucket in Hbucket.
  apply bind_returns in Hbucket as (account & wg & ? & ? & Haccount & Hret & _).
  unfold ret in Hret. injection Hret as <- _ _.
  destruct (get_account_id_returns _ _ _ _ Haccount) as (w0 & Hidentity).
  destruct (upload_template_returns _ _ _ _ _ Hupload)
    as (body & w0' & w0'' & Hread & -> & ->).
  exists account, body. split; [|split; [reflexivity|split; eauto]].
  unfold print, emit in Hprint. injection Hprint as _ _ <-.
  rewrite !filter_app, H1, H3, H4, H6. reflexivity.
Qed.

Lemma deploy_stage_no_describe : silent is_describe (deploy_stage svc cfg).
Proof.
  unfold deploy_stage, get_clients, get_staging_bucket, get_account_id,
    ensure_staging_bucket, upload_template, build_params, get_account_id,
    client, s3_meta_region_name.
  silence. intros w. reflexivity.
Qed.

(** X4.  A deploy whose staging block fails stops there: it ends with the
    exception of that block, has not described the stack, has made no
    mutating stack call, and the exit status is 1. *)
Theorem failed_staging_stops_the_deploy :
  forall w e w1 t1,
    deploy_stage svc cfg w = (Raise e, w1, t1) ->
    cmd_deploy svc cfg w = (Raise e, w1, t1)
    /\ calls is_describe t1 = 0
    /\ stack_mutations t1 = []
    /\ exit_code (outcome_of (cmd_deploy svc cfg w)) = 1%Z.
Proof.
  intros w e w1 t1 Hstage.
  assert (Hrun : cmd_deploy svc cfg w = (Raise e, w1, t1)).
  { unfold cmd_deploy. now rewrite (bind_raise _ _ _ _ _ _ Hstage). }
  pose proof (deploy_stage_no_describe w) as Hd.
  pose proof (silent_filter _ _ w (deploy_stage_no_stack_mutation svc cfg))
    as Hm.
  pose proof (deploy_stage_no_exit svc cfg w) as Hexit.
  rewrite Hstage in Hd, Hm, Hexit.
  unfold trace_of, outcome_of in *; cbn [fst snd] in *.
  rewrite Hrun. cbn [fst]. repeat split; try assumption.
  destruct e as [f|code]; [reflexivity|]. destruct (Hexit code eq_refl).
Qed.

End StagedTemplate.

Lemma staging_bucket_is_not_recreated_witness :
  calls is_create_bucket
    (trace_of (ensure_staging_bucket (Mock.services Mock.calm) source_config
                 "cfn-templates-123456789012" Mock.start)) = 0.
Proof.
  refine (proj2 (staging_bucket_is_not_recreated (Mock.services Mock.calm)
    source_config "cfn-templates-123456789012" Mock.start _ _ eq_refl _)).
  intros msg. discriminate.
Defined.

Lemma staging_bucket_is_created_in_region_witness :
  ensure_staging_bucket (Mock.services Mock.unstaged) source_config
    "cfn-templates-123456789012" Mock.start =
    (Ok tt, Mock.start,
     [ HeadBucket "cfn-templates-123456789012";
       Print "  Creating staging bucket: cfn-templates-123456789012";
       CreateBucket "cfn-templates-123456789012" None ]).
Proof.
  exact (staging_bucket_is_created_in_region (Mock.services Mock.unstaged)
    source_config "cfn-templates-123456789012" Mock.start _ _ eq_refl).
Defined.

Lemma deploy_uses_uploaded_template_witness :
  exists url params t account body,
    deploy_stage (Mock.services Mock.calm) source_config Mock.start
      = (Ok (url, params), Mock.start, t)
    /\ filter is_put_object t =
         [PutObject ("cfn-templates-" ++ account)
                    "gsi-export-test/template.yaml" body].
Proof.
  assert (Hstage :
    { url & { params & { t &
      deploy_stage (Mock.services Mock.calm) source_config Mock.start
        = (Ok (url, params), Mock.start, t) } } }).
  { do 3 eexists. reflexivity. }
  destruct Hstage as (url & params & t & Hstage).
  destruct (deploy_uses_uploaded_template (Mock.services Mock.calm)
    source_config _ _ _ _ _ Hstage) as (account & body & Hput & _).
  now exists url, params, t, account, body.
Defined.

Lemma failed_staging_stops_the_deploy_witness :
  exit_code (outcome_of (cmd_deploy (Mock.services Mock.untemplated)
                           source_config Mock.start)) = 1%Z.
Proof.
  refine (proj2 (proj2 (proj2 (failed_staging_stops_the_deploy
    (Mock.services Mock.untemplated) source_config Mock.start _ _ _ _)))).
  reflexivity.
Defined.

(** ** The parameters passed to the stack *)
Section StaticParameters.

Context {W : Type} (svc : Services W).

Lemma set_fresh d k v :
  ~ In k (map fst d) -> Py.set d k v = (d ++ [(k, v)])%list.
Proof.
  induction d as [|[k0 v0] d IH]; simpl; intros Hfresh; [reflexivity|].
  destruct (String.eqb_spec k0 k) as [->|Hne].
  - destruct Hfresh. now left.
  - rewrite IH; [reflexivity|]. intros H. apply Hfresh. now right.
Qed.

(** A dict display with distinct keys holds its items as written. *)
Lemma of_items_distinct items :
  NoDup (map fst items) -> Py.of_items items = items.
Proof.
  unfold Py.of_items, Py.comprehension.
  assert (H : forall acc,
            NoDup (map fst (acc ++ items)) ->
            fold_left (fun d o => Py.set d (fst o) (snd o)) items acc
            = (acc ++ items)%list).
  { induction items as [|[k v] items IH]; intros acc Hnd; simpl.
    - now rewrite app_nil_r.
    - rewrite set_fresh.
      + rewrite IH; rewrite <- app_assoc; [reflexivity | exact Hnd].
      + rewrite map_app in Hnd. simpl in Hnd.
        apply NoDup_remove_2 in Hnd. intros Hin. apply Hnd.
        apply in_or_app. now left. }
  intros Hnd. now apply (H []).
Qed.

(** [d[k] = v] leaves the entries of the other keys as they are. *)
Lemma set_other d k v k' :
  k' <> k ->
  filter (fun kv => fst kv =? k') (Py.set d k v)
  = filter (fun kv => fst kv =? k') d.
Proof.
  intros Hne. induction d as [|[k0 v0] d IH]; simpl.
  - destruct (String.eqb_spec k k'); [congruence | reflexivity].
  - destruct (String.eqb_spec k0 k) as [->|Hne0]; simpl.
    + destruct (String.eqb_spec k k'); [congruence | reflexivity].
    + now rewrite IH.
Qed.

Lemma parameter_values_of_dict (d : Py.dict) k :
  parameter_values k
    (map (fun kv => {| ParameterKey := fst kv; ParameterValue := snd kv |}) d)
  = map snd (filter (fun kv => fst kv =? k) d).
Proof.
  unfold parameter_values. induction d as [|[k0 v0] d IH]; [reflexivity|].
  simpl. destruct (k0 =? k); simpl; now rewrite IH.
Qed.

(** What a successful [build_params] returns. *)
Lemma build_params_returns cfg w params w1 t1 :
  build_params svc cfg w = (Ok params, w1, t1) ->
  exists v,
    params =
      map (fun kv => {| ParameterKey := fst kv; ParameterValue := snd kv |})
          (Py.set (Py.of_items (PARAMETERS cfg)) "S3BucketName" v).
Proof.
  unfold build_params. cbv zeta. intros H.
  apply bind_returns in H as (d & wa & ta & tb & Hd & Hret & _).
  unfold ret in Hret. injection Hret as <- _ _.
  destruct (Py.truthy (S3_BUCKET_NAME cfg)).
  - unfold ret in Hd. injection Hd as <- _ _. eauto.
  - apply bind_returns in Hd as (account & ? & ? & ? & _ & Hret & _).
    unfold ret in Hret. injection Hret as <- _ _. eauto.
Qed.

(** X5.  [build_params] passes every static parameter on with its
    configured value: for a configuration with distinct keys, the values
    sent for any key other than [S3BucketName] are those of [PARAMETERS]. *)
Theorem build_params_keeps_static_parameters :
  forall cfg w params w1 t1 key,
    NoDup (map fst (PARAMETERS cfg)) ->
    build_params svc cfg w = (Ok params, w1, t1) ->
    key <> "S3BucketName" ->
    parameter_values key params
    = map snd (filter (fun kv => fst kv =? key) (PARAMETERS cfg)).
Proof.
  intros cfg w params w1 t1 key Hdistinct Hbuild Hkey.
  destruct (build_params_returns _ _ _ _ _ Hbuild) as (v & ->).
  rewrite parameter_values_of_dict, set_other by exact Hkey.
  now rewrite of_items_distinct.
Qed.

(** X6.  The parameters [build_params] returns never name a key twice,
    and always name [S3BucketName]: a configured [S3BucketName] entry is
    overwritten, not repeated. *)
Theorem build_params_keys_are_distinct :
  forall cfg w params w1 t1,
    build_params svc cfg w = (Ok params, w1, t1) ->
    NoDup (map ParameterKey params)
    /\ In "S3BucketName" (map ParameterKey params)
    /\ List.length (parameter_values "S3BucketName" params) = 1.
Proof.
  intros cfg w params w1 t1 Hbuild.
  destruct (build_params_returns _ _ _ _ _ Hbuild) as (v & ->).
  pose proof (comprehension_unique fst snd (PARAMETERS cfg)) as Hunique.
  fold (Py.of_items (PARAMETERS cfg)) in Hunique.
  rewrite map_map. cbn [ParameterKey].
  change (map (fun x : string * string => fst x)) with (@map (string * string) _ fst).
  split; [now apply set_unique|]. split.
  - pose proof (set_values _ "S3BucketName" v Hunique) as Hv.
    destruct (filter _ (Py.set _ _ v)) as [|[k0 v0] l] eqn:E; [discriminate|].
    assert (Hin : In (k0, v0)
              (filter (fun kv => fst kv =? "S3BucketName")
                 (Py.set (Py.of_items (PARAMETERS cfg)) "S3BucketName" v)))
      by (rewrite E; now left).
    apply filter_In in Hin as (Hin & Hk). cbn [fst] in Hk.
    apply String.eqb_eq in Hk. subst k0.
    apply in_map_iff. now exists ("S3BucketName", v0).
  - now rewrite parameter_values_set.
Qed.

End StaticParameters.

Lemma source_parameters_distinct : NoDup (map fst (PARAMETERS source_config)).
Proof.
  cbn. repeat (constructor; [cbn; intuition discriminate|]). constructor.
Qed.

Lemma build_params_keeps_static_parameters_witness :
  exists params,
    build_params (Mock.services Mock.calm) source_config Mock.start
      = (Ok params, Mock.start,
         [Boto3Client "sts" (Some "us-east-1"); GetCallerIdentity])
    /\ parameter_values "CronExpression" params = ["rate(1 day)"].
Proof.
  eexists. split; [reflexivity|].
  rewrite (build_params_keeps_static_parameters (Mock.services Mock.calm)
    source_config Mock.start _ _ _ "CronExpression"
    source_parameters_distinct eq_refl).
  - reflexivity.
  - discriminate.
Defined.

Lemma build_params_keys_are_distinct_witness :
  exists params,
    build_params (Mock.services Mock.calm)
      (with_bucket "my-export-bucket" source_config) Mock.start
      = (Ok params, Mock.start, [])
    /\ NoDup (map ParameterKey params).
Proof.
  eexists. split; [reflexivity|].
  exact (proj1 (build_params_keys_are_distinct (Mock.services Mock.calm)
    (with_bucket "my-export-bucket" source_config) Mock.start _ _ _ eq_refl)).
Defined.

(** ** Reading the stack *)
Section Reading.

Context {W : Type} (svc : Services W) (cfg : Config).

(** X7.  The existence check describes the stack once.  It raises exactly
    when that call raises something other than a [ClientError] whose text
    contains "does not exist", and then it raises that very exception. *)
Theorem existence_check_reraises :
  forall w,
    trace_of (stack_exists svc cfg w) = [DescribeStacks (STACK_NAME cfg)]
    /\ world_of (stack_exists svc cfg w)
       = snd (describe_stacks svc (STACK_NAME cfg) w)
    /\ forall e,
         outcome_of (stack_exists svc cfg w) = Raise e <->
         exists f,
           fst (describe_stacks svc (STACK_NAME cfg) w) = inl f
           /\ e = Failure f
           /\ (is_ClientError f && Py.contains "does not exist" (str f))
              = false.
Proof.
  intros w.
  destruct (describe_stacks svc (STACK_NAME cfg) w) as [[[msg|cls msg]|stack] w1]
    eqn:Hdescribe; cbn [fst snd].
  - rewrite (stack_exists_client_error _ _ _ _ _ Hdescribe).
    unfold trace_of, world_of, outcome_of; cbn [fst snd].
    split; [reflexivity|]. split; [reflexivity|]. intros e.
    cbn [is_ClientError str andb].
    destruct (Py.contains "does not exist" msg) eqn:Hc; split.
    + discriminate.
    + intros (f & Hf & _ & H). injection Hf as <-.
      cbn [is_ClientError str andb] in H. congruence.
    + intros H. injection H as <-. exists (ClientError msg).
      cbn [is_ClientError str andb]. auto.
    + intros (f & Hf & -> & _). now injection Hf as <-.
  - rewrite (stack_exists_other_error _ _ _ _ _ _ Hdescribe).
    unfold trace_of, world_of, outcome_of; cbn [fst snd].
    split; [reflexivity|]. split; [reflexivity|]. intros e. split.
    + intros H. injection H as <-. eauto.
    + intros (f & Hf & -> & _). now injection Hf as <-.
  - rewrite (stack_exists_described _ _ _ _ _ Hdescribe).
    unfold trace_of, world_of, outcome_of; cbn [fst snd].
    split; [reflexivity|]. split; [reflexivity|]. intros e. split.
    + discriminate.
    + intros (f & Hf & _). discriminate.
Qed.

(** X8.  With the stack described, [print_outputs] prints one line for
    every output, key and value, between a header and two rules, and the
    dashboard line after the ReportDashboardURL output; without outputs,
    listed as empty or not listed at all, it prints "No outputs found." *)
Theorem outputs_listing_shows_every_output :
  forall w stack w1,
    describe_stacks svc (STACK_NAME cfg) w = (inr stack, w1) ->
    let shown := printed (trace_of (print_outputs svc cfg w)) in
    outcome_of (print_outputs svc cfg w) = Ok tt
    /\ (forall o,
          In o (outputs_of stack) ->
          In ("  " ++ Py.ljust 30 (OutputKey o) ++ " " ++ OutputValue o) shown
          /\ (OutputKey o = "ReportDashboardURL" ->
              In (Py.nl ++ "  >>> Dashboard URL: " ++ OutputValue o) shown))
    /\ (outputs_of stack = [] <-> shown = ["  No outputs found."])
    /\ (outputs_of stack <> [] ->
        List.length shown
        = 3 + List.length (outputs_of stack)
          + List.length (filter (fun o => OutputKey o =? "ReportDashboardURL")
                           (outputs_of stack))).
Proof.
  intros w stack w1 Hdescribe shown. subst shown.
  rewrite (print_outputs_described _ _ _ _ _ Hdescribe).
  unfold outcome_of, trace_of; cbn [fst snd].
  change (printed (DescribeStacks (STACK_NAME cfg)
                   :: map Print (listing (outputs_of stack))))
    with (printed (map Print (listing (outputs_of stack)))).
  rewrite printed_prints. split; [reflexivity|].
  assert (Hlines : forall l o,
            In o l ->
            In ("  " ++ Py.ljust 30 (OutputKey o) ++ " " ++ OutputValue o)
               (flat_map output_lines l)
            /\ (OutputKey o = "ReportDashboardURL" ->
                In (Py.nl ++ "  >>> Dashboard URL: " ++ OutputValue o)
                   (flat_map output_lines l))).
  { intros l o Hin. split.
    - apply in_flat_map. exists o. split; [exact Hin | now left].
    - intros Hkey. apply in_flat_map. exists o. split; [exact Hin|].
      unfold output_lines. rewrite Hkey. right. now left. }
  assert (Hcount : forall l,
            List.length (flat_map output_lines l)
            = List.length l
              + List.length (filter (fun o => OutputKey o =? "ReportDashboardURL") l)).
  { induction l as [|o l IH]; [reflexivity|].
    cbn [flat_map filter]. rewrite length_app, IH. unfold output_lines.
    destruct (OutputKey o =? "ReportDashboardURL"); cbn; lia. }
  destruct (outputs_of stack) as [|o0 l] eqn:E.
  - split; [intros o []|]. split; [now split|]. intros H. now destruct H.
  - unfold listing. cbv zeta. split; [|split].
    + intros o Hin. destruct (Hlines (o0 :: l) o Hin) as (H1 & H2). split.
      * right. right. apply in_or_app. now left.
      * intros Hkey. right. right. apply in_or_app. left. now apply H2.
    + split; [discriminate|]. intros H. discriminate.
    + intros _. cbn [List.length]. rewrite length_app, Hcount. cbn. lia.
Qed.

Lemma queries_no_mutation {A} (m : M W A) :
  silent (outside is_query) m -> silent is_mutating m.
Proof. apply silent_weaken. now intros []. Qed.

Lemma get_clients_no_describe : silent is_describe (get_clients svc cfg).
Proof. unfold get_clients, client. silence. Qed.

Lemma cmd_status_queries : silent (outside is_query) (cmd_status svc cfg).
Proof.
  pose proof (get_clients_queries svc cfg).
  pose proof (print_status_queries svc cfg).
  unfold cmd_status. silence.
Qed.

Lemma cmd_outputs_queries : silent (outside is_query) (cmd_outputs svc cfg).
Proof.
  pose proof (get_clients_queries svc cfg).
  pose proof (print_outputs_queries svc cfg).
  unfold cmd_outputs. silence.
Qed.

(** X9.  [status] and [outputs] only read: in every world they build their
    clients, describe the stack at most once and print; they make no
    mutating call, start no wait and ask the operator nothing. *)
Theorem read_commands_change_nothing :
  forall name w,
    name = "status" \/ name = "outputs" ->
    forall argv0 rest,
      let t := trace_of (main svc cfg (argv0 :: name :: rest) w) in
      calls (outside is_query) t = 0
      /\ calls is_mutating t = 0
      /\ calls is_waiter_wait t = 0
      /\ calls is_input t = 0
      /\ calls is_describe t <= 1.
Proof.
  intros name w Hname argv0 rest t.
  assert (Hcmd : exists c : M W unit,
            main svc cfg (argv0 :: name :: rest) = c
            /\ silent (outside is_query) c
            /\ forall w, calls is_describe (trace_of (c w)) <= 1).
  { destruct Hname as [-> | ->];
      [exists (cmd_status svc cfg) | exists (cmd_outputs svc cfg)];
      (split; [reflexivity|]); split.
    - apply cmd_status_queries.
    - intros w0. unfold cmd_status. rewrite trace_bind, calls_app.
      assert (Hc : calls is_describe (trace_of (get_clients svc cfg w0)) = 0).
      { apply get_clients_no_describe. }
      rewrite Hc. destruct (outcome_of (get_clients svc cfg w0)); [|cbn; lia].
      set (w1 := world_of (get_clients svc cfg w0)).
      destruct (describe_stacks svc (STACK_NAME cfg) w1) as [[[m|c m]|s] w2]
        eqn:Hd.
      + rewrite (print_status_client_error _ _ _ _ _ Hd). cbn. lia.
      + rewrite (print_status_other_error _ _ _ _ _ _ Hd). cbn. lia.
      + rewrite (print_status_described _ _ _ _ _ Hd).
        unfold trace_of; cbn [snd]. rewrite calls_cons. cbn [is_describe].
        destruct (StackStatusReason s); cbn; lia.
    - apply cmd_outputs_queries.
    - intros w0. unfold cmd_outputs. rewrite trace_bind, calls_app.
      assert (Hc : calls is_describe (trace_of (get_clients svc cfg w0)) = 0).
      { apply get_clients_no_describe. }
      rewrite Hc. destruct (outcome_of (get_clients svc cfg w0)); [|cbn; lia].
      set (w1 := world_of (get_clients svc cfg w0)).
      destruct (describe_stacks svc (STACK_NAME cfg) w1) as [[[m|c m]|s] w2]
        eqn:Hd.
      + rewrite (print_outputs_client_error _ _ _ _ _ Hd). cbn. lia.
      + rewrite (print_outputs_other_error _ _ _ _ _ _ Hd). cbn. lia.
      + rewrite (print_outputs_described _ _ _ _ _ Hd).
        unfold trace_of; cbn [snd]. rewrite calls_cons. cbn [is_describe plus].
        assert (Hp : forall l, calls is_describe (map Print l) = 0).
        { induction l as [|x l IH]; [reflexivity|].
          cbn [map]. now rewrite calls_cons. }
        rewrite Hp. lia. }
  destruct Hcmd as (c & Hmain & Hquiet & Hdescribe).
  subst t. rewrite Hmain.
  split; [apply Hquiet|]. split; [|split; [|split]].
  - now apply queries_no_mutation.
  - apply (silent_weaken is_waiter_wait (outside is_query));
      [now intros [] | exact Hquiet].
  - apply (silent_weaken is_input (outside is_query));
      [now intros [] | exact Hquiet].
  - apply Hdescribe.
Qed.

End Reading.

Lemma existence_check_reraises_witness :
  outcome_of (stack_exists (Mock.services Mock.denied) source_config Mock.start)
    = Raise (Failure Mock.access_denied).
Proof.
  apply (proj2 (proj2 (existence_check_reraises (Mock.services Mock.denied)
    source_config Mock.start))).
  exists Mock.access_denied. repeat split.
Defined.

Lemma outputs_listing_shows_every_output_witness :
  List.length
    (printed (trace_of (print_outputs (Mock.services Mock.calm) source_config
                          Mock.start))) = 7.
Proof.
  destruct (outputs_listing_shows_every_output (Mock.services Mock.calm)
    source_config Mock.start _ _ eq_refl) as (_ & _ & _ & Hcount).
  rewrite Hcount; [reflexivity | discriminate].
Defined.

Lemma read_commands_change_nothing_witness :
  calls is_mutating
    (trace_of (Mock.run Mock.calm ["deploy.py"; "status"])) = 0
  /\ calls is_mutating
       (trace_of (Mock.run Mock.denied ["deploy.py"; "outputs"; "--force"]))
     = 0.
Proof.
  split.
  - exact (proj1 (proj2 (read_commands_change_nothing (Mock.services Mock.calm)
      source_config "status" Mock.start (or_introl eq_refl) "deploy.py" []))).
  - exact (proj1 (proj2 (read_commands_change_nothing
      (Mock.services Mock.denied) source_config "outputs" Mock.start
      (or_intror eq_refl) "deploy.py" ["--force"]))).
Defined.

(** ** Deleting *)
Section Deleting.

Context {W : Type} (svc : Services W) (cfg : Config).

(** X10.  A delete that finds no stack says so and returns: the operator
    is not asked anything, nothing is cleaned up or deleted, and the exit
    status is 0. *)
Theorem delete_of_missing_stack :
  forall w w1 t1 w2 t2,
    get_clients svc cfg w = (Ok tt, w1, t1) ->
    stack_exists svc cfg w1 = (Ok false, w2, t2) ->
    cmd_delete svc cfg w =
      (Ok tt, w2,
       (t1 ++ t2
        ++ [Print ("  Stack '" ++ STACK_NAME cfg ++ "' does not exist.")])%list)
    /\ calls is_input (trace_of (cmd_delete svc cfg w)) = 0
    /\ calls is_mutating (trace_of (cmd_delete svc cfg w)) = 0.
Proof.
  intros w w1 t1 w2 t2 Hclients Hexists.
  assert (Hrun : cmd_delete svc cfg w =
      (Ok tt, w2,
       (t1 ++ t2
        ++ [Print ("  Stack '" ++ STACK_NAME cfg ++ "' does not exist.")])%list)).
  { unfold cmd_delete.
    rewrite (bind_ok _ _ _ _ _ _ Hclients); cbv beta.
    rewrite (bind_ok _ _ _ _ _ _ Hexists); cbv beta. reflexivity. }
  split; [exact Hrun|]. rewrite Hrun. unfold trace_of; cbn [snd].
  assert (Hq : forall p,
            (forall e, p e = true -> outside is_query e = true) ->
            calls p t1 = 0 /\ calls p t2 = 0).
  { intros p Hp.
    pose proof (silent_weaken p _ _ Hp (get_clients_queries svc cfg) w) as H1.
    pose proof (silent_weaken p _ _ Hp (stack_exists_queries svc cfg) w1) as H2.
    rewrite Hclients in H1. rewrite Hexists in H2. now split. }
  destruct (Hq is_input) as (Hi1 & Hi2); [now intros []|].
  destruct (Hq is_mutating) as (Hm1 & Hm2); [now intros []|].
  rewrite !calls_app, Hi1, Hi2, Hm1, Hm2. split; reflexivity.
Qed.

(** X11.  A delete makes no mutating call, cleanup included, unless it
    has found the stack, asked the operator, and read a line that
    normalizes to [yes]. *)
Theorem mutation_only_after_confirmation :
  forall w,
    calls is_mutating (trace_of (cmd_delete svc cfg w)) <> 0 ->
    exists line w' t,
      prompted svc cfg w line w' t /\ normalize line = "yes".
Proof.
  intros w Hmutated.
  assert (Hq : forall A (m : M W A),
            silent (outside is_query) m -> silent is_mutating m).
  { intros A m. apply silent_weaken. now intros []. }
  pose proof (Hq _ _ (get_clients_queries svc cfg) w) as H1.
  destruct (get_clients svc cfg w) as [[[[]|e] w1] t1] eqn:Hclients.
  2:{ destruct Hmutated. unfold cmd_delete.
      now rewrite (bind_raise _ _ _ _ _ _ Hclients). }
  pose proof (Hq _ _ (stack_exists_queries svc cfg) w1) as H2.
  unfold trace_of in H1, H2; cbn [snd] in H1.
  destruct (stack_exists svc cfg w1) as [[[[|]|e] w2] t2] eqn:Hexists;
    cbn [snd] in H2.
  - destruct (input svc confirm_prompt w2) as [[f|line] w3] eqn:Hinput.
    + destruct Hmutated. unfold cmd_delete.
      rewrite (bind_ok _ _ _ _ _ _ Hclients); cbv beta.
      rewrite (bind_ok _ _ _ _ _ _ Hexists); cbv beta. cbn [negb].
      unfold bind, print, emit, call, trace_of. rewrite Hinput.
      cbn [fst snd]. rewrite !calls_app, H1, H2. reflexivity.
    + assert (Hprompted : prompted svc cfg w line w3
                (t1 ++ t2 ++ prompt_events cfg)).
      { now exists w1, t1, w2, t2. }
      exists line, w3, (t1 ++ t2 ++ prompt_events cfg)%list.
      split; [exact Hprompted|].
      destruct (String.eqb_spec (normalize line) "yes") as [Hyes|Hno];
        [exact Hyes|].
      destruct Hmutated. rewrite (cmd_delete_prompted _ _ _ _ _ _ Hprompted).
      destruct (String.eqb_spec (normalize line) "yes"); [contradiction|].
      unfold trace_of; cbn [snd].
      now rewrite calls_app, (prompted_no_mutation _ _ _ _ _ _ Hprompted).
  - destruct Hmutated. unfold cmd_delete.
    rewrite (bind_ok _ _ _ _ _ _ Hclients); cbv beta.
    rewrite (bind_ok _ _ _ _ _ _ Hexists); cbv beta. cbn [negb].
    unfold trace_of, print, emit; cbn [snd].
    now rewrite !calls_app, H1, H2.
  - destruct Hmutated. unfold cmd_delete.
    rewrite (bind_ok _ _ _ _ _ _ Hclients); cbv beta.
    rewrite (bind_raise _ _ _ _ _ _ Hexists).
    unfold trace_of; cbn [snd]. now rewrite calls_app, H1, H2.
Qed.

End Deleting.

Section Cleanup.

Context {W : Type} (svc : Services W) (cfg : Config).

(** X12.  The bucket step empties at most two buckets, and only buckets
    that the stack lists, with a non-empty name, under the output keys
    ExportDataBucket and AthenaResultsBucket. *)
Theorem only_listed_buckets_are_emptied :
  forall w,
    calls is_delete_all_objects (trace_of (empty_buckets svc cfg w)) <= 2
    /\ forall bucket,
         In (DeleteAllObjects bucket) (trace_of (empty_buckets svc cfg w)) ->
         exists stack w1,
           describe_stacks svc (STACK_NAME cfg) w = (inr stack, w1)
           /\ bucket <> ""
           /\ let outputs :=
                Py.comprehension OutputKey OutputValue (outputs_of stack) in
              Py.get outputs "ExportDataBucket" = Some bucket
              \/ Py.get outputs "AthenaResultsBucket" = Some bucket.
Proof.
  intros w.
  unfold empty_buckets, try_binding, fetch_outputs, empty_listed_buckets,
    warn_emptying, describe.
  cbn [for_each].
  unfold catching, call, bind, print, emit, ret, trace_of.
  destruct (describe_stacks svc (STACK_NAME cfg) w) as [[f|stack] w1] eqn:Hd.
  - cbn. split; [lia|]. intros bucket [H|[H|[]]]; discriminate.
  - cbv beta iota zeta.
    set (outputs := Py.comprehension OutputKey OutputValue (outputs_of stack)).
    destruct (boto3_resource svc "s3" w1) as [[f|[]] w2].
    { cbn. split; [lia|]. intros bucket [H|[H|[H|[]]]]; discriminate. }
    cbv beta iota zeta.
    assert (Hname : forall b, Py.truthy b = true -> b <> "").
    { intros b Hb ->. discriminate. }
    destruct (Py.get outputs "ExportDataBucket") as [b1|] eqn:G1;
      [destruct (Py.truthy b1) eqn:T1|];
      destruct (Py.get outputs "AthenaResultsBucket") as [b2|] eqn:G2;
      try destruct (Py.truthy b2) eqn:T2;
      repeat (cbn;
              match goal with
              | |- context [delete_all_objects svc ?b ?w0] =>
                  destruct (delete_all_objects svc b w0) as [[?|[]] ?]
              end);
      cbn; (split; [lia|]); intros bucket Hin;
      repeat (destruct Hin as [Hin|Hin]; try discriminate);
      try contradiction;
      injection Hin as <-; exists stack, w1; (split; [reflexivity|]);
      split; auto.
Qed.

(** X13.  The workgroup step deletes at most one workgroup: the one the
    stack lists, with a non-empty name, under the output key
    AthenaWorkgroup, and always with the recursive option. *)
Theorem workgroup_is_deleted_recursively :
  forall outputs w,
    calls is_delete_work_group (trace_of (delete_workgroup svc outputs w)) <= 1
    /\ forall workgroup recursive,
         In (DeleteWorkGroup workgroup recursive)
            (trace_of (delete_workgroup svc outputs w)) ->
         recursive = true /\ workgroup <> ""
         /\ exists d,
              outputs = Some d
              /\ Py.get d "AthenaWorkgroup" = Some workgroup.
Proof.
  intros outputs w.
  unfold delete_workgroup, try_except, catching, warn_workgroup, client, call,
    bind, print, emit, ret, raise, trace_of.
  destruct (boto3_client svc "athena" None w) as [[f|[]] w1];
    cbv beta iota zeta; cbn [is_Exception].
  { cbn. split; [lia|]. intros wg r [H|[H|[]]]; discriminate. }
  destruct outputs as [d|]; cbv beta iota zeta; cbn [is_Exception].
  2:{ cbn. split; [lia|]. intros wg r [H|[H|[]]]; discriminate. }
  destruct (Py.get d "AthenaWorkgroup") as [wg0|] eqn:G.
  2:{ cbn. split; [lia|]. intros wg r [H|[]]; discriminate. }
  destruct (Py.truthy wg0) eqn:T.
  2:{ cbn. split; [lia|]. intros wg r [H|[]]; discriminate. }
  cbv beta iota zeta.
  destruct (delete_work_group svc wg0 true w1) as [[f|[]] w2];
    cbv beta iota zeta; cbn [is_Exception]; cbn; (split; [lia|]);
    intros wg r Hin;
    repeat (destruct Hin as [Hin|Hin]; try discriminate); try contradiction;
    injection Hin as <- <-; (split; [reflexivity|]);
    (split; [intros ->; discriminate | eauto]).
Qed.

(** The delete call and what follows it emit nothing but the call, the
    wait and prints. *)
Lemma delete_call_then_waits w :
  exists o w3 t3,
    (call (DeleteStack (STACK_NAME cfg)) (delete_stack svc (STACK_NAME cfg)) ;;
     success <- wait_for_stack svc cfg "stack_delete_complete" ;;
     if success then print "  Stack deleted successfully."
     else print "  Delete may have failed. Check console.") w
    = (o, w3, DeleteStack (STACK_NAME cfg) :: t3)
    /\ calls (outside is_waiting) t3 = 0.
Proof.
  pose proof (wait_for_stack_waiting svc cfg "stack_delete_complete") as Hs.
  unfold silent, call, bind, print, emit, trace_of in *.
  destruct (delete_stack svc (STACK_NAME cfg) w) as [[f|[]] w1];
    cbv beta iota zeta; [do 3 eexists; split; reflexivity|].
  specialize (Hs w1).
  destruct (wait_for_stack svc cfg "stack_delete_complete" w1)
    as [[[success|e] w2] t2]; cbn [fst snd] in *; cbv beta iota zeta.
  - destruct success; do 3 eexists; (split; [reflexivity|]);
      rewrite calls_app, Hs; reflexivity.
  - do 3 eexists. split; [reflexivity|]. exact Hs.
Qed.

(** X14.  In a confirmed delete the cleanup comes first and [delete_stack]
    last: everything before the call belongs to the two cleanup steps, and
    after it there is only the wait and the final message, no further
    mutating call. *)
Theorem delete_stack_follows_the_cleanup :
  forall w,
    exists before after,
      trace_of (delete_confirmed svc cfg w)
        = (before ++ DeleteStack (STACK_NAME cfg) :: after)%list
      /\ calls (outside is_cleanup) before = 0
      /\ calls is_stack_mutation before = 0
      /\ calls (outside is_waiting) after = 0
      /\ calls is_mutating after = 0.
Proof.
  intros w.
  destruct (delete_confirmed_run svc cfg w)
    as (outputs & w1 & t1 & w2 & t2 & o & w3 & t3 & E1 & E2 & E3 & _).
  pose proof (empty_buckets_cleanup svc cfg w) as H1.
  pose proof (delete_workgroup_cleanup svc outputs w1) as H2.
  rewrite E1 in H1. rewrite E2 in H2. unfold trace_of in H1, H2; cbn [snd] in *.
  destruct (delete_call_then_waits w2) as (o' & w3' & t3' & E3' & H3).
  assert (Ht3 : t3' = t3).
  { unfold delete_confirmed in E3.
    rewrite (bind_ok _ _ _ _ _ _ E1) in E3; cbv beta in E3.
    rewrite (bind_ok _ _ _ _ _ _ E2) in E3; cbv beta in E3.
    rewrite E3' in E3. unfold trace_of in E3; cbn [fst snd] in E3.
    injection E3 as _ _ E3. apply app_inv_head in E3.
    injection E3 as E3. apply app_inv_head in E3. now injection E3. }
  subst t3'.
  exists (t1 ++ Boto3Client "athena" None :: t2)%list, t3.
  rewrite E3. unfold trace_of; cbn [snd].
  split; [now rewrite <- app_assoc|].
  assert (Hbefore : calls (outside is_cleanup)
                      (t1 ++ Boto3Client "athena" None :: t2) = 0)
    by now rewrite calls_app, H1, H2.
  split; [exact Hbefore|]. split; [|split; [exact H3|]].
  - rewrite (calls_within is_stack_mutation (outside is_cleanup)).
    + unfold calls in Hbefore. apply length_zero_iff_nil in Hbefore.
      now rewrite Hbefore.
    + now intros [].
  - rewrite (calls_within is_mutating (outside is_waiting)).
    + unfold calls in H3. apply length_zero_iff_nil in H3. now rewrite H3.
    + now intros [].
Qed.

End Cleanup.

Lemma delete_of_missing_stack_witness :
  calls is_input
    (trace_of (cmd_delete (Mock.services Mock.absent) source_config Mock.start))
  = 0
  /\ calls is_mutating
       (trace_of
          (cmd_delete (Mock.services Mock.absent) source_config Mock.start))
     = 0.
Proof.
  exact (proj2 (delete_of_missing_stack (Mock.services Mock.absent)
    source_config Mock.start _ _ _ _ eq_refl eq_refl)).
Defined.

Lemma mutation_only_after_confirmation_witness :
  calls is_mutating
    (trace_of (cmd_delete (Mock.services Mock.calm) source_config Mock.start))
  <> 0
  /\ exists line w' t,
       prompted (Mock.services Mock.calm) source_config Mock.start line w' t
       /\ normalize line = "yes".
Proof.
  assert (Hmutates :
    calls is_mutating
      (trace_of (cmd_delete (Mock.services Mock.calm) source_config Mock.start))
    <> 0) by (vm_compute; discriminate).
  split; [exact Hmutates|].
  exact (mutation_only_after_confirmation (Mock.services Mock.calm)
    source_config Mock.start Hmutates).
Defined.

Lemma only_listed_buckets_are_emptied_witness :
  exists stack w1,
    describe_stacks (Mock.services Mock.calm) "gsi-export-test" Mock.start
      = (inr stack, w1)
    /\ "gsi-export-test-123456789012" <> ""
    /\ let outputs :=
         Py.comprehension OutputKey OutputValue (outputs_of stack) in
       Py.get outputs "ExportDataBucket" = Some "gsi-export-test-123456789012"
       \/ Py.get outputs "AthenaResultsBucket"
          = Some "gsi-export-test-123456789012".
Proof.
  apply (proj2 (only_listed_buckets_are_emptied (Mock.services Mock.calm)
    source_config Mock.start) "gsi-export-test-123456789012").
  vm_compute. repeat (first [left; reflexivity | right]).
Defined.

Lemma workgroup_is_deleted_recursively_witness :
  true = true /\ "gsi-export-wg" <> ""
  /\ exists d,
       Some (Py.comprehension OutputKey OutputValue (outputs_of Mock.deployed))
         = Some d
       /\ Py.get d "AthenaWorkgroup" = Some "gsi-export-wg".
Proof.
  apply (proj2 (workgroup_is_deleted_recursively (Mock.services Mock.calm)
    (Some (Py.comprehension OutputKey OutputValue (outputs_of Mock.deployed)))
    Mock.start) "gsi-export-wg" true).
  vm_compute. repeat (first [left; reflexivity | right]).
Defined.

(** ** Fault isolation of the cleanup *)
Section Isolation.

Context {W : Type} (svc : Services W) (cfg : Config).

Lemma calls_none p q t :
  (forall e, p e = true -> q e = true) -> calls q t = 0 -> calls p t = 0.
Proof.
  intros Hpq Hq. rewrite (calls_within p q t Hpq).
  unfold calls in Hq. apply length_zero_iff_nil in Hq. now rewrite Hq.
Qed.

(** The bucket step never deletes a workgroup. *)
Lemma empty_buckets_no_workgroup :
  silent is_delete_work_group (empty_buckets svc cfg).
Proof.
  unfold empty_buckets, fetch_outputs, empty_listed_buckets, warn_emptying,
    describe.
  silence.
Qed.

(** The local [outputs] after the bucket step: bound when the describe call
    answered, unbound when it raised. *)
Lemma fetch_outputs_described w stack w1 :
  describe_stacks svc (STACK_NAME cfg) w = (inr stack, w1) ->
  outcome_of (fetch_outputs svc cfg w)
  = Ok (Py.comprehension OutputKey OutputValue (outputs_of stack)).
Proof.
  intros H. unfold fetch_outputs, describe, call, bind, ret, outcome_of.
  now rewrite H.
Qed.

Lemma fetch_outputs_failed w f w1 :
  describe_stacks svc (STACK_NAME cfg) w = (inl f, w1) ->
  outcome_of (fetch_outputs svc cfg w) = Raise (Failure f).
Proof.
  intros H. unfold fetch_outputs, describe, call, bind, ret, outcome_of.
  now rewrite H.
Qed.

(** A confirmed delete whose bucket step failed, piece by piece. *)
Lemma delete_confirmed_after_failure w f :
  let body := empty_buckets_body svc cfg w in
  outcome_of body = Raise (Failure f) ->
  let outputs :=
    match outcome_of (fetch_outputs svc cfg w) with
    | Ok d => Some d
    | Raise _ => None
    end in
  exists t3,
    trace_of (delete_confirmed svc cfg w) =
      ((trace_of body ++ [Print ("  Warning emptying buckets: " ++ str f)])
       ++ trace_of (delete_workgroup svc outputs (world_of body))
       ++ DeleteStack (STACK_NAME cfg) :: t3)%list
    /\ calls (outside is_waiting) t3 = 0.
Proof.
  intros body Hfail outputs.
  pose proof (empty_buckets_run svc cfg w) as Hfirst. cbv zeta in Hfirst.
  fold body in Hfirst. rewrite Hfail in Hfirst. fold outputs in Hfirst.
  destruct (delete_workgroup_run svc outputs (world_of body))
    as (w2 & t2 & E2).
  destruct (delete_call_then_waits svc cfg w2) as (o & w3 & t3 & E3 & Hwait).
  exists t3. split; [|exact Hwait].
  unfold delete_confirmed.
  rewrite (bind_ok _ _ _ _ _ _ Hfirst); cbv beta.
  rewrite (bind_ok _ _ _ _ _ _ E2); cbv beta.
  rewrite E3, E2. unfold trace_of; cbn [fst snd]. reflexivity.
Qed.

(** C5.  In a confirmed delete a failure raised in the bucket-emptying
    step is caught and logged as "Warning emptying buckets", and
    [delete_stack] is still issued, exactly once.  The workgroup deletion
    is still attempted when the failure came after the describe call, which
    binds [outputs].  When the describe call itself is what failed,
    [outputs] is unbound: the workgroup step ends in its own warning and
    [delete_work_group] is never called. *)
Theorem failed_describe_skips_workgroup_deletion :
  forall w line w' t f,
    prompted svc cfg w line w' t ->
    normalize line = "yes" ->
    let body := empty_buckets_body svc cfg w' in
    outcome_of body = Raise (Failure f) ->
    let run := trace_of (cmd_delete svc cfg w) in
    In (Print ("  Warning emptying buckets: " ++ str f)) run
    /\ stack_mutations run = [DeleteStack (STACK_NAME cfg)]
    /\ (forall stack w1 workgroup w2,
          describe_stacks svc (STACK_NAME cfg) w' = (inr stack, w1) ->
          Py.get (Py.comprehension OutputKey OutputValue (outputs_of stack))
                 "AthenaWorkgroup" = Some workgroup ->
          Py.truthy workgroup = true ->
          boto3_client svc "athena" None (world_of body) = (inr tt, w2) ->
          calls is_delete_work_group run = 1
          /\ In (DeleteWorkGroup workgroup true) run)
    /\ (forall w1,
          describe_stacks svc (STACK_NAME cfg) w' = (inl f, w1) ->
          calls is_delete_work_group run = 0
          /\ exists e,
               In (Print ("  Warning deleting workgroup: " ++ e)) run).
Proof.
  intros w line w' t f Hprompted Hyes body Hfail run.
  pose proof (cmd_delete_prompted _ _ _ _ _ _ Hprompted) as Hrun.
  rewrite Hyes in Hrun. cbn [String.eqb Ascii.eqb Bool.eqb] in Hrun.
  pose proof (prompted_no_mutation _ _ _ _ _ _ Hprompted) as Hquiet.
  assert (Hquiet_wg : calls is_delete_work_group t = 0).
  { apply (calls_none _ is_mutating); [now intros []|exact Hquiet]. }
  destruct (delete_confirmed_run svc cfg w')
    as (_ & _ & _ & _ & _ & _ & _ & _ & _ & _ & _ & Hm).
  destruct (delete_confirmed_after_failure w' f Hfail) as (t3 & Htrace & Hwait).
  fold body in Htrace.
  assert (Hwait_wg : calls is_delete_work_group t3 = 0).
  { apply (calls_none _ (outside is_waiting)); [now intros []|exact Hwait]. }
  pose proof (empty_buckets_no_workgroup w') as Hfirst_wg.
  pose proof (empty_buckets_run svc cfg w') as Hfirst. cbv zeta in Hfirst.
  fold body in Hfirst. rewrite Hfail in Hfirst. rewrite Hfirst in Hfirst_wg.
  unfold trace_of at 1 in Hfirst_wg; cbn [snd] in Hfirst_wg.
  rewrite calls_app in Hfirst_wg.
  assert (Hbody_wg : calls is_delete_work_group (trace_of body) = 0) by lia.
  clear Hfirst_wg.
  assert (Erun : run =
            (t ++ (trace_of body
                   ++ [Print ("  Warning emptying buckets: " ++ str f)])
               ++ trace_of
                    (delete_workgroup svc
                       match outcome_of (fetch_outputs svc cfg w') with
                       | Ok d => Some d
                       | Raise _ => None
                       end (world_of body))
               ++ DeleteStack (STACK_NAME cfg) :: t3)%list).
  { subst run. rewrite Hrun. unfold trace_of at 1; cbn [snd].
    now rewrite Htrace. }
  split; [|split; [|split]].
  - rewrite Erun. apply in_or_app. right. apply in_or_app. left.
    apply in_or_app. right. now left.
  - pose proof (no_mutation_no_stack_mutation _ Hquiet) as Hnone.
    subst run. rewrite Hrun. unfold trace_of at 1; cbn [snd].
    unfold stack_mutations in *. now rewrite filter_app, Hnone, Hm.
  - intros stack w1 workgroup w2 Hdescribe Hget Htruthy Hclient.
    rewrite Erun, (fetch_outputs_described _ _ _ Hdescribe).
    assert (Hstep : exists rest,
              trace_of (delete_workgroup svc
                (Some (Py.comprehension OutputKey OutputValue
                         (outputs_of stack))) (world_of body))
              = ([ Boto3Client "athena" None;
                   Print ("  Deleting Athena workgroup: " ++ workgroup);
                   DeleteWorkGroup workgroup true ] ++ rest)%list
              /\ calls is_delete_work_group rest = 0).
    { unfold delete_workgroup, try_except, catching, warn_workgroup, client,
        call, bind, print, emit, ret, raise, trace_of.
      rewrite Hclient. cbv beta iota zeta. rewrite Hget, Htruthy.
      cbv beta iota zeta.
      destruct (delete_work_group svc workgroup true w2) as [[e|[]] w3];
        cbv beta iota zeta; cbn [is_Exception fst snd app];
        eexists; split; reflexivity. }
    destruct Hstep as (rest & -> & Hrest). split.
    + rewrite !calls_app, !calls_cons, Hquiet_wg, Hbody_wg, Hwait_wg, Hrest.
      reflexivity.
    + apply in_or_app. right. apply in_or_app. right. apply in_or_app. left.
      apply in_or_app. left. right. right. now left.
  - intros w1 Hdescribe.
    rewrite Erun, (fetch_outputs_failed _ _ _ Hdescribe).
    assert (Hstep : exists e,
              trace_of (delete_workgroup svc None (world_of body))
              = [ Boto3Client "athena" None;
                  Print ("  Warning deleting workgroup: " ++ e) ]).
    { unfold delete_workgroup, try_except, catching, warn_workgroup, client,
        call, bind, print, emit, ret, raise, trace_of.
      destruct (boto3_client svc "athena" None (world_of body))
        as [[e|[]] w2]; cbv beta iota zeta; cbn [is_Exception fst snd app];
        eexists; reflexivity. }
    destruct Hstep as (e & ->). split.
    + rewrite !calls_app, !calls_cons, Hquiet_wg, Hbody_wg, Hwait_wg.
      reflexivity.
    + exists e. apply in_or_app. right. apply in_or_app. right.
      apply in_or_app. left. right. now left.
Qed.

End Isolation.

Lemma failed_describe_skips_workgroup_deletion_witness :
  calls is_delete_work_group
    (trace_of (cmd_delete (Mock.services Mock.unreachable) source_config
                 Mock.start)) = 0
  /\ stack_mutations
       (trace_of (cmd_delete (Mock.services Mock.unreachable) source_config
                    Mock.start)) = [DeleteStack "gsi-export-test"]
  /\ In (DeleteWorkGroup "gsi-export-wg" true)
        (trace_of (cmd_delete (Mock.services Mock.sealed) source_config
                     Mock.start)).
Proof.
  assert (Hsealed :
    { t & prompted (Mock.services Mock.sealed) source_config Mock.start
            "yes" Mock.described t }).
  { eexists. do 4 eexists. repeat split; reflexivity. }
  assert (Hunreachable :
    { t & prompted (Mock.services Mock.unreachable) source_config Mock.start
            "yes" Mock.described t }).
  { eexists. do 4 eexists. repeat split; reflexivity. }
  destruct Hsealed as (t1 & Hsealed).
  destruct Hunreachable as (t2 & Hunreachable).
  destruct (failed_describe_skips_workgroup_deletion
    (Mock.services Mock.unreachable) source_config _ _ _ _ _
    Hunreachable eq_refl eq_refl) as (_ & Hstack & _ & Hskipped).
  destruct (failed_describe_skips_workgroup_deletion
    (Mock.services Mock.sealed) source_config _ _ _ _ _
    Hsealed eq_refl eq_refl) as (_ & _ & Hattempted & _).
  split; [|split].
  - exact (proj1 (Hskipped _ eq_refl)).
  - exact Hstack.
  - exact (proj2 (Hattempted Mock.deployed _ "gsi-export-wg" _
                    eq_refl eq_refl eq_refl eq_refl)).
Defined.

(** ** The create-or-update branch *)
Section Submitting.

Context {W : Type} (svc : Services W) (cfg : Config).

(** The branch when its call raises anything but "No updates": the
    exception leaves the branch at once. *)
Lemma deploy_apply_call_failed exists_ url params w f w1 :
  submit_answer svc cfg exists_ url params w = (inl f, w1) ->
  exists_ && is_no_updates f = false ->
  deploy_apply svc cfg exists_ url params w =
    (Raise (Failure f), w1, submit_events cfg exists_ url params).
Proof.
  unfold submit_answer, submit_events, is_no_updates.
  intros Hcall Hother.
  unfold deploy_apply, deploy_submit, try_except, catching, call, bind,
    print, emit, ret, raise.
  destruct exists_; rewrite Hcall; cbv beta iota zeta; [|reflexivity].
  cbn [andb] in Hother.
  destruct f as [msg|cls msg]; cbn [is_ClientError str andb] in *;
    [|reflexivity].
  now rewrite Hother.
Qed.

(** The branch once its call has been answered: the wait, then the
    report on what the wait returned. *)
Lemma deploy_apply_call_answered exists_ url params w w1 :
  submit_answer svc cfg exists_ url params w = (inr tt, w1) ->
  let waited := wait_for_stack svc cfg (submit_waiter exists_) w1 in
  deploy_apply svc cfg exists_ url params w =
    match outcome_of waited with
    | Ok success =>
        let reported := deploy_report svc cfg success (world_of waited) in
        (outcome_of reported, world_of reported,
         (submit_events cfg exists_ url params
          ++ trace_of waited ++ trace_of reported)%list)
    | Raise e =>
        (Raise e, world_of waited,
         (submit_events cfg exists_ url params ++ trace_of waited)%list)
    end.
Proof.
  unfold submit_answer, submit_events, submit_waiter. intros Hcall.
  cbv zeta.
  unfold deploy_apply, deploy_submit, try_except, catching, call, bind,
    print, emit, ret, outcome_of, world_of, trace_of.
  destruct exists_; rewrite Hcall; cbv beta iota zeta.
  - destruct (wait_for_stack svc cfg "stack_update_complete" w1)
      as [[[success|e] w2] t2]; cbn [fst snd]; cbv beta iota zeta;
      [|now rewrite ?app_nil_r].
    destruct (deploy_report svc cfg success w2) as [[o3 w3] t3].
    cbn [fst snd app]. now rewrite ?app_nil_r.
  - destruct (wait_for_stack svc cfg "stack_create_complete" w1)
      as [[[success|e] w2] t2]; cbn [fst snd]; cbv beta iota zeta;
      [|now rewrite ?app_nil_r].
    destruct (deploy_report svc cfg success w2) as [[o3 w3] t3].
    cbn [fst snd app]. now rewrite ?app_nil_r.
Qed.

(** X15.  An error of the create call, or an error of the update call
    other than "No updates are to be performed", is not handled: the
    deploy ends with that exception right after the call, without waiting
    and without a report, and the exit status is 1. *)
Theorem stack_call_errors_propagate :
  forall w url params exists_ w2 t f w3,
    checked svc cfg w url params exists_ w2 t ->
    submit_answer svc cfg exists_ url params w2 = (inl f, w3) ->
    exists_ && is_no_updates f = false ->
    cmd_deploy svc cfg w =
      (Raise (Failure f), w3,
       (t ++ submit_events cfg exists_ url params)%list)
    /\ calls is_waiter_wait (trace_of (cmd_deploy svc cfg w)) = 0
    /\ exit_code (outcome_of (cmd_deploy svc cfg w)) = 1%Z.
Proof.
  intros w url params exists_ w2 t f w3 Hchecked Hcall Hother.
  assert (Hrun : cmd_deploy svc cfg w =
      (Raise (Failure f), w3,
       (t ++ submit_events cfg exists_ url params)%list)).
  { rewrite (cmd_deploy_checked _ _ _ _ _ _ _ _ Hchecked).
    now rewrite (deploy_apply_call_failed _ _ _ _ _ _ Hcall Hother). }
  split; [exact Hrun|]. rewrite Hrun.
  unfold trace_of, outcome_of; cbn [fst snd]. split; [|reflexivity].
  destruct Hchecked as (w1 & t1 & t2 & Hstage & Hexists & ->).
  pose proof (deploy_stage_no_wait svc cfg w) as H1.
  pose proof (queries_no_wait _ (stack_exists_queries svc cfg) w1) as H2.
  rewrite Hstage in H1. rewrite Hexists in H2.
  unfold trace_of in *; cbn [snd] in *.
  rewrite !calls_app, H1, H2. now destruct exists_.
Qed.

(** X16.  A deploy whose call is answered and whose wait succeeds prints
    "Deployment successful!" and then lists the outputs: it ends as
    [print_outputs] ends, and never through [sys.exit]. *)
Theorem successful_deploy_lists_outputs :
  forall w url params exists_ w2 t w3 w4 t4,
    checked svc cfg w url params exists_ w2 t ->
    submit_answer svc cfg exists_ url params w2 = (inr tt, w3) ->
    wait_for_stack svc cfg (submit_waiter exists_) w3 = (Ok true, w4, t4) ->
    let shown := print_outputs svc cfg w4 in
    cmd_deploy svc cfg w =
      (outcome_of shown, world_of shown,
       (t ++ submit_events cfg exists_ url params ++ t4
          ++ Print (Py.nl ++ "  Deployment successful!") :: trace_of shown)%list)
    /\ forall code,
         outcome_of (cmd_deploy svc cfg w) <> Raise (SystemExit code).
Proof.
  intros w url params exists_ w2 t w3 w4 t4 Hchecked Hcall Hwait shown.
  assert (Hrun : cmd_deploy svc cfg w =
      (outcome_of shown, world_of shown,
       (t ++ submit_events cfg exists_ url params ++ t4
          ++ Print (Py.nl ++ "  Deployment successful!") :: trace_of shown)%list)).
  { rewrite (cmd_deploy_checked _ _ _ _ _ _ _ _ Hchecked).
    rewrite (deploy_apply_call_answered _ _ _ _ _ Hcall). cbv zeta.
    rewrite Hwait. subst shown.
    unfold deploy_report, bind, print, emit, outcome_of, world_of, trace_of.
    cbn [fst snd].
    destruct (print_outputs svc cfg w4) as [[o5 w5] t5]. reflexivity. }
  split; [exact Hrun|]. rewrite Hrun. unfold outcome_of at 1; cbn [fst].
  intros code Hexit. exact (print_outputs_no_exit svc cfg w4 code Hexit).
Qed.

(** X17.  A deploy leaves through [sys.exit] on one path only: with code
    1, after its wait has reported a failure and both the "Stack operation
    failed" and the "Deployment failed" lines have been printed. *)
Theorem deploy_exits_only_after_a_failed_wait :
  forall w code,
    outcome_of (cmd_deploy svc cfg w) = Raise (SystemExit code) ->
    code = 1%Z
    /\ (exists e,
          In (Print ("  Stack operation failed: " ++ str e))
             (trace_of (cmd_deploy svc cfg w)))
    /\ In (Print (Py.nl
                  ++ "  Deployment failed. Check the AWS CloudFormation console."))
          (trace_of (cmd_deploy svc cfg w)).
Proof.
  intros w code Hexit.
  split; [exact (cmd_deploy_exits_with_1 svc cfg w code Hexit)|].
  pose proof (deploy_stage_no_exit svc cfg w) as Hstage_exit.
  destruct (deploy_stage svc cfg w) as [[[[url params]|e] w1] t1] eqn:Hstage.
  2:{ unfold cmd_deploy in Hexit. rewrite (bind_raise _ _ _ _ _ _ Hstage) in Hexit.
      unfold outcome_of in *; cbn [fst] in *. injection Hexit as ->.
      destruct (Hstage_exit code eq_refl). }
  pose proof (stack_exists_no_exit svc cfg w1) as Hexists_exit.
  destruct (stack_exists svc cfg w1) as [[[exists_|e] w2] t2] eqn:Hexists.
  2:{ unfold cmd_deploy in Hexit. rewrite (bind_ok _ _ _ _ _ _ Hstage) in Hexit.
      cbv beta in Hexit. rewrite (bind_raise _ _ _ _ _ _ Hexists) in Hexit.
      unfold outcome_of in *; cbn [fst] in *. injection Hexit as ->.
      destruct (Hexists_exit code eq_refl). }
  assert (Hchecked : checked svc cfg w url params exists_ w2 (t1 ++ t2)).
  { now exists w1, t1, t2. }
  rewrite (cmd_deploy_checked _ _ _ _ _ _ _ _ Hchecked) in *.
  unfold outcome_of at 1 in Hexit; cbn [fst] in Hexit.
  unfold trace_of at 1 3; cbn [snd].
  destruct (submit_answer svc cfg exists_ url params w2) as [[f|[]] w3]
    eqn:Hcall.
  - (* the call raised: the branch ends without [sys.exit] *)
    destruct (exists_ && is_no_updates f) eqn:Hnoop.
    + apply andb_prop in Hnoop as (-> & Hnoop).
      unfold is_no_updates in Hnoop. apply andb_prop in Hnoop as (Hc & Hmsg).
      destruct f as [msg|]; [|discriminate]. cbn [str] in Hmsg.
      unfold submit_answer in Hcall.
      rewrite (deploy_apply_noop _ _ _ _ _ _ _ Hcall Hmsg) in Hexit.
      unfold outcome_of at 1 in Hexit; cbn [fst] in Hexit.
      destruct (print_outputs_no_exit svc cfg w3 code Hexit).
    + rewrite (deploy_apply_call_failed _ _ _ _ _ _ Hcall Hnoop) in Hexit.
      discriminate.
  - (* the call was answered: wait, then report *)
    rewrite (deploy_apply_call_answered _ _ _ _ _ Hcall) in *. cbv zeta in *.
    assert (Hlisted : In (submit_waiter exists_) waiter_names)
      by exact (deploy_waiter_listed exists_).
    pose proof (wait_for_stack_run svc cfg (submit_waiter exists_) w3 Hlisted)
      as Hrun.
    cbv zeta in Hrun.
    destruct (wait_for_stack_returns svc cfg (submit_waiter exists_) Hlisted w3)
      as (success & Hsuccess).
    rewrite Hsuccess in *.
    destruct success.
    + (* the wait succeeded: the report cannot exit *)
      unfold deploy_report, bind, print, emit, outcome_of in Hexit.
      pose proof (print_outputs_no_exit svc cfg
        (world_of (wait_for_stack svc cfg (submit_waiter exists_) w3)) code)
        as Hno.
      unfold outcome_of in Hno.
      destruct (print_outputs svc cfg _) as [[o5 w5] t5]; cbn [fst] in *.
      now destruct (Hno Hexit).
    + (* the wait failed *)
      rewrite Hrun in Hsuccess |- *.
      unfold outcome_of at 1 in Hsuccess; cbn [fst] in Hsuccess.
      unfold trace_of at 1 3; cbn [snd].
      set (attempts := waiter_attempt svc (submit_waiter exists_)
                         (STACK_NAME cfg) 10 119 w3) in *.
      destruct (outcome_of attempts) as [u|[e|c]]; try discriminate.
      assert (Hreport : exists rest,
                trace_of (deploy_report svc cfg false
                  (world_of (Ok false, world_of attempts,
                     Print ("  Waiting for stack " ++ submit_waiter exists_ ++ "...")
                     :: WaiterWait (submit_waiter exists_) (STACK_NAME cfg) 10 120
                     :: (trace_of attempts
                         ++ [Print ("  Stack operation failed: " ++ str e)])%list)))
                = Print (Py.nl
                    ++ "  Deployment failed. Check the AWS CloudFormation console.")
                  :: rest).
      { unfold world_of; cbn [fst snd].
        unfold deploy_report, bind, print, emit, raise, trace_of.
        destruct (print_status svc cfg (snd (fst attempts)))
          as [[[[]|e'] w5] t5]; cbn [fst snd]; eexists; reflexivity. }
      destruct Hreport as (rest & ->).
      split.
      * exists e. apply in_or_app. right. apply in_or_app. right.
        apply in_or_app. left. right. right. apply in_or_app. right.
        now left.
      * apply in_or_app. right. apply in_or_app. right.
        apply in_or_app. right. now left.
Qed.


End Submitting.

Lemma stack_call_errors_propagate_witness :
  calls is_waiter_wait
    (trace_of
       (cmd_deploy (Mock.services Mock.uncreatable) source_config Mock.start))
  = 0
  /\ exit_code
       (outcome_of
          (cmd_deploy (Mock.services Mock.uncreatable) source_config
             Mock.start))
     = 1%Z.
Proof.
  assert (Hchecked :
    { url & { params & { w2 & { t &
      checked (Mock.services Mock.uncreatable) source_config Mock.start
        url params false w2 t } } } }).
  { do 4 eexists. do 3 eexists. repeat split; reflexivity. }
  destruct Hchecked as (url & params & w2 & t & Hchecked).
  exact (proj2 (stack_call_errors_propagate (Mock.services Mock.uncreatable)
    source_config Mock.start url params false w2 t _ _
    Hchecked eq_refl eq_refl)).
Defined.

Lemma successful_deploy_lists_outputs_witness :
  outcome_of (cmd_deploy (Mock.services Mock.calm) source_config Mock.start)
  <> Raise (SystemExit 1%Z).
Proof.
  assert (Hchecked :
    { url & { params & { w2 & { t &
      checked (Mock.services Mock.calm) source_config Mock.start
        url params true w2 t } } } }).
  { do 4 eexists. do 3 eexists. repeat split; reflexivity. }
  destruct Hchecked as (url & params & w2 & t & Hchecked).
  exact (proj2 (successful_deploy_lists_outputs (Mock.services Mock.calm)
    source_config Mock.start url params true w2 t _ _ _
    Hchecked eq_refl eq_refl) 1%Z).
Defined.

Lemma deploy_exits_only_after_a_failed_wait_witness :
  In (Print (Py.nl
             ++ "  Deployment failed. Check the AWS CloudFormation console."))
     (trace_of
        (cmd_deploy (Mock.services Mock.stalled) source_config Mock.start)).
Proof.
  exact (proj2 (proj2 (deploy_exits_only_after_a_failed_wait
    (Mock.services Mock.stalled) source_config Mock.start 1%Z eq_refl))).
Defined.

